(** * Demand forecasting pipeline of the AI service (models/demand_predictor.py)

    A shallow embedding of [DemandPredictor]: the synthetic sales generator,
    the forecast records built from the fitted estimator, the seasonal
    adjuster, the budget allocator, the fallback catalogue, [predict] with its
    two exception handlers, and the recommendation composer.

    Number model.  Python [int] is [Z].  Python [float] is modelled by exact
    rationals ([Q]), every arithmetic result being stored in lowest terms
    ([Qred]) so that equal numbers are equal terms; rounding error, infinities
    and NaN of binary64 are outside the model.  [int(x)] truncates toward
    zero.

    Library code (NumPy's generator, pandas/scikit-learn fitting) is not part
    of the repository; it enters through the class [Library]. *)

From Stdlib Require Import ZArith QArith Qround Qabs Lia Lqa List Bool String Ascii.
From Stdlib Require Import DecimalString.
From Stdlib Require Import Permutation Sorted.
Import ListNotations.

Local Open Scope Z_scope.

(* ================================================================== *)
(** ** Exceptions and results *)

Inductive exn : Type :=
| ZeroDivisionError
| ValueError
| LibraryError (msg : string).

Inductive result (A : Type) : Type :=
| Ok (a : A)
| Raise (e : exn).
Arguments Ok {A} a.
Arguments Raise {A} e.

Definition bind {A B} (r : result A) (k : A -> result B) : result B :=
  match r with
  | Ok a => k a
  | Raise e => Raise e
  end.

Declare Scope result_scope.
Delimit Scope result_scope with result.
Notation "x <- r ;; k" := (bind r (fun x => k))
  (at level 61, r at next level, right associativity) : result_scope.

(** [try: body except Exception: handler] *)
Definition try_except {A} (body : result A) (handler : exn -> result A) : result A :=
  match body with
  | Ok a => Ok a
  | Raise e => handler e
  end.

(** A [for] loop whose body may raise: the first exception leaves the loop. *)
Fixpoint for_each {A B} (f : A -> result B) (l : list A) : result (list B) :=
  match l with
  | [] => Ok []
  | x :: rest =>
      (y <- f x ;;
       ys <- for_each f rest ;;
       Ok (y :: ys))%result
  end.

(* ================================================================== *)
(** ** Python numbers *)

Module Py.

Definition fadd (x y : Q) : Q := Qred (x + y).
Definition fsub (x y : Q) : Q := Qred (x - y).
Definition fmul (x y : Q) : Q := Qred (x * y).

(** [x / y] raises [ZeroDivisionError] when [y] is zero. *)
Definition fdiv (x y : Q) : result Q :=
  if Qeq_bool y 0 then Raise ZeroDivisionError else Ok (Qred (x / y)).

Definition of_int (z : Z) : Q := inject_Z z.

(** [int(x)]: truncation toward zero. *)
Definition int (x : Q) : Z :=
  if Qle_bool 0 x then Qfloor x else Qceiling x.

Definition le (x y : Q) : bool := Qle_bool x y.
Definition lt (x y : Q) : bool := negb (Qle_bool y x).

(** [max(a, b)]: [b] replaces [a] only when [b > a]. *)
Definition max (a b : Q) : Q := if lt a b then b else a.

(** [sum(xs)] starting from 0, left to right. *)
Definition sum (xs : list Q) : Q := fold_left fadd xs 0%Q.

(** Truth value of an [Optional[float]]: [None] and [0.0] are false. *)
Definition truthy (b : option Q) : bool :=
  match b with
  | None => false
  | Some x => negb (Qeq_bool x 0)
  end.

End Py.

(* ================================================================== *)
(** ** Data model *)

(** The prediction dictionaries.  The three budget keys exist only after the
    budget allocator (or the fallback generator with a budget) has written
    them. *)
Record ItemForecast : Type := mkForecast {
  item_name : string;
  predicted_demand_30d : Z;
  predicted_demand_60d : Z;
  predicted_demand_90d : Z;
  avg_daily_demand : Q;
  confidence : Q;
  reason : string;
  investment_required : option Q;
  expected_profit : option Q;
  roi_percentage : option Q
}.

Definition set_budget_keys (p : ItemForecast) (inv profit roi : Q) : ItemForecast :=
  {| item_name := item_name p;
     predicted_demand_30d := predicted_demand_30d p;
     predicted_demand_60d := predicted_demand_60d p;
     predicted_demand_90d := predicted_demand_90d p;
     avg_daily_demand := avg_daily_demand p;
     confidence := confidence p;
     reason := reason p;
     investment_required := Some inv;
     expected_profit := Some profit;
     roi_percentage := Some roi |}.

Definition set_predicted_demand_90d (p : ItemForecast) (d : Z) : ItemForecast :=
  {| item_name := item_name p;
     predicted_demand_30d := predicted_demand_30d p;
     predicted_demand_60d := predicted_demand_60d p;
     predicted_demand_90d := d;
     avg_daily_demand := avg_daily_demand p;
     confidence := confidence p;
     reason := reason p;
     investment_required := investment_required p;
     expected_profit := expected_profit p;
     roi_percentage := roi_percentage p |}.

(** [pred.get(key, 0)] *)
Definition get_or_zero (v : option Q) : Q :=
  match v with
  | Some x => x
  | None => 0%Q
  end.

(* ================================================================== *)
(** ** Stable descending sort: [list.sort(key=..., reverse=True)] and
       [sorted(..., key=..., reverse=True)]

    Python's sort is stable also under [reverse=True]: elements with equal
    keys keep their original relative order. *)

Section Sort.
Context {A : Type} (key : A -> Q).

Fixpoint insert_desc (x : A) (l : list A) : list A :=
  match l with
  | [] => [x]
  | y :: rest =>
      if Py.lt (key x) (key y) then y :: insert_desc x rest
      else x :: y :: rest
  end.

Definition sort_desc (l : list A) : list A := fold_right insert_desc [] l.
End Sort.

(* ================================================================== *)
(** ** Budget allocator: [_apply_budget_constraints] *)

(** Lines 188-192: the pricing loop.  The ROI is a quotient by the investment
    just computed, so an item with [predicted_demand_90d = 0] raises. *)
Definition price_item (pred : ItemForecast) : result ItemForecast :=
  let inv := Py.of_int (predicted_demand_90d pred * 100) in
  let profit := Py.fmul inv (3 # 10) in
  (ratio <- Py.fdiv profit inv ;;
   Ok (set_budget_keys pred inv profit (Py.fmul ratio 100)))%result.

(** The partial allocation of lines 208-211 ([pred.copy()] with three keys
    rewritten; [roi_percentage] and the 30/60-day demands are kept). *)
Definition partial_item (pred : ItemForecast) (remaining_budget : Q) : ItemForecast :=
  {| item_name := item_name pred;
     predicted_demand_30d := predicted_demand_30d pred;
     predicted_demand_60d := predicted_demand_60d pred;
     predicted_demand_90d := Py.int (remaining_budget / 100);
     avg_daily_demand := avg_daily_demand pred;
     confidence := confidence pred;
     reason := reason pred;
     investment_required := Some remaining_budget;
     expected_profit := Some (Py.fmul remaining_budget (3 # 10));
     roi_percentage := roi_percentage pred |}.

(** Lines 197-213: the greedy loop, [total_investment] being the accumulator.
    The [break] sits inside the [elif]: an item that fits neither branch
    (the total already reached the budget) is skipped and the loop goes on. *)
Fixpoint allocate (budget total_investment : Q) (predictions : list ItemForecast)
  : list ItemForecast :=
  match predictions with
  | [] => []
  | pred :: rest =>
      let inv := get_or_zero (investment_required pred) in
      if Py.le (Py.fadd total_investment inv) budget then
        pred :: allocate budget (Py.fadd total_investment inv) rest
      else if Py.lt total_investment budget then
        let remaining_budget := Py.fsub budget total_investment in
        if Py.le 1000 remaining_budget then [partial_item pred remaining_budget]
        else []
      else allocate budget total_investment rest
  end.

(** The list the greedy loop walks: priced, then sorted by ROI, descending. *)
Definition priced_sorted (predictions : list ItemForecast) : result (list ItemForecast) :=
  (priced <- for_each price_item predictions ;;
   Ok (sort_desc (fun p => get_or_zero (roi_percentage p)) priced))%result.

Definition _apply_budget_constraints (predictions : list ItemForecast) (budget : Q)
  : result (list ItemForecast) :=
  (sorted <- priced_sorted predictions ;;
   Ok (allocate budget 0 sorted))%result.

(** [if budget: predictions = self._apply_budget_constraints(predictions, budget)],
    the statement that ends both the ML path and the fallback generator. *)
Definition if_budget (budget : option Q) (predictions : list ItemForecast)
  : result (list ItemForecast) :=
  match budget with
  | Some b => if Py.truthy budget then _apply_budget_constraints predictions b
              else Ok predictions
  | None => Ok predictions
  end.

(** Total of the [investment_required] entries of a list. *)
Definition total_investment_of (l : list ItemForecast) : Q :=
  fold_right (fun p acc => (get_or_zero (investment_required p) + acc)%Q) 0%Q l.

(* ================================================================== *)
(** ** Calendar dates *)

Record date : Type := mkDate { year : Z; month : Z; day : Z }.

Definition is_leap (y : Z) : bool :=
  (y mod 4 =? 0) && (negb (y mod 100 =? 0) || (y mod 400 =? 0)).

Definition days_in_month (y m : Z) : Z :=
  if m =? 2 then (if is_leap y then 29 else 28)
  else if (m =? 4) || (m =? 6) || (m =? 9) || (m =? 11) then 30
  else 31.

(** Days of the year before the first of month [m]. *)
Definition days_before_month (y m : Z) : Z :=
  fold_right Z.add 0
    (map (days_in_month y) (map Z.of_nat (seq 1 (Z.to_nat (m - 1))))).

(** [date.dayofyear] *)
Definition dayofyear (d : date) : Z := days_before_month (year d) (month d) + day d.

(** [date.toordinal()]: day number, 0001-01-01 being day 1. *)
Definition toordinal (d : date) : Z :=
  let y := year d - 1 in
  y * 365 + y / 4 - y / 100 + y / 400 + dayofyear d.

Definition next_day (d : date) : date :=
  if day d <? days_in_month (year d) (month d) then mkDate (year d) (month d) (day d + 1)
  else if month d <? 12 then mkDate (year d) (month d + 1) 1
  else mkDate (year d + 1) 1 1.

Fixpoint days_from (n : nat) (d : date) : list date :=
  match n with
  | O => []
  | S k => d :: days_from k (next_day d)
  end.

(** [pd.date_range(start=..., end=..., freq='D')]: both ends included. *)
Definition date_range (start stop : date) : list date :=
  days_from (Z.to_nat (toordinal stop - toordinal start + 1)) start.

(* ================================================================== *)
(** ** Library interface *)

(** One row of the sales table. *)
Record SalesRecord : Type := mkSale {
  sale_date : date;
  sale_item : string;
  quantity_sold : Z;
  price : Q
}.

(** What lines 107-149 of [_ml_prediction] hand to the rest of the loop body
    for one item that has at least 5 aggregated rows: the estimator's
    per-day predictions for the horizon, and the held-out targets with the
    estimator's predictions for them. *)
Record Fitted : Type := mkFitted {
  fit_item_name : string;
  future_predictions : list Q;
  y_test : list Q;
  y_pred : list Q
}.

(** NumPy's global generator (a state of type [G]) and the pandas /
    scikit-learn part of [_ml_prediction].  Nothing is assumed about them
    beyond their types. *)
Class Library (G : Type) : Type := {
  (** state installed by [np.random.seed(s)] for an accepted seed *)
  mt19937_init : Z -> G;
  np_random_poisson : Z -> G -> Z * G;
  np_random_normal : Q -> Q -> G -> Q * G;
  np_random_uniform : Q -> Q -> G -> Q * G;
  np_sin : Q -> Q;
  (** aggregation, split, fit and predict for every item, given the table,
      [days_ahead] and [datetime.now()]; may raise *)
  fit_items : list SalesRecord -> Z -> date -> result (list Fitted)
}.

(** [np.pi], the binary64 number nearest to pi. *)
Definition np_pi : Q := 884279719003555 # 281474976710656.

(** Computations that draw from the global generator. *)
Definition Rand (G A : Type) : Type := G -> A * G.

Definition rret {G A} (a : A) : Rand G A := fun g => (a, g).
Definition rbind {G A B} (m : Rand G A) (k : A -> Rand G B) : Rand G B :=
  fun g => let (a, g1) := m g in k a g1.

Declare Scope rand_scope.
Delimit Scope rand_scope with rand.
Notation "x <~ m ;; k" := (rbind m (fun x => k))
  (at level 61, m at next level, right associativity) : rand_scope.

Fixpoint rand_for {G A B} (f : A -> Rand G (list B)) (l : list A) : Rand G (list B) :=
  match l with
  | [] => rret []
  | x :: rest =>
      (ys <~ f x ;;
       zs <~ rand_for f rest ;;
       rret (ys ++ zs))%rand
  end.

(* ================================================================== *)
(** ** Synthetic data generator: [_get_sales_data] *)

Section Generator.
Context {G : Type} {lib : Library G}.

(** [np.random.seed(company_id)]: the legacy seeding accepts an integer
    only in [0, 2**32 - 1] and raises [ValueError] otherwise. *)
Definition np_random_seed (seed : Z) : result G :=
  if (0 <=? seed) && (seed <? 2 ^ 32) then Ok (mt19937_init seed)
  else Raise ValueError.

Definition items : list string :=
  ["item_a"; "item_b"; "item_c"; "item_d"; "item_e"]%string.

Definition dates : list date := date_range (mkDate 2023 1 1) (mkDate 2024 10 31).

(** Lines 89-99, one row.  The draws happen in source order: Poisson,
    normal, uniform. *)
Definition gen_row (d : date) (item : string) : Rand G (list SalesRecord) :=
  (base_sales <~ np_random_poisson 10 ;;
   let angle := Qred (Py.fmul (Py.fmul 2 np_pi) (Py.of_int (dayofyear d)) / 365) in
   let seasonal_factor := Py.fadd 1 (Py.fmul (2 # 10) (np_sin angle)) in
   jitter <~ np_random_normal 0 (1 # 10) ;;
   let sales :=
     Py.int (Py.fmul (Py.fmul (Py.of_int base_sales) seasonal_factor) (Py.fadd 1 jitter)) in
   let sales := Z.max 0 sales in
   unit_price <~ np_random_uniform 50 200 ;;
   rret [mkSale d item sales unit_price])%rand.

Definition gen_table : Rand G (list SalesRecord) :=
  rand_for (fun d => rand_for (gen_row d) items) dates.

(** The call reseeds the global generator and leaves it advanced. *)
Definition _get_sales_data (company_id : Z) (g : G) : result (list SalesRecord) * G :=
  match np_random_seed company_id with
  | Raise e => (Raise e, g)
  | Ok g0 => let (table, g1) := gen_table g0 in (Ok table, g1)
  end.

End Generator.

(* ================================================================== *)
(** ** Per-item forecaster: the part of [_ml_prediction] written in the
       repository (lines 150-164) *)

(** [ndarray.sum()]; exact, so the order of summation is immaterial. *)
Definition np_sum (xs : list Q) : Q := Qred (fold_right Qplus 0%Q xs).

(** [np.mean] / [ndarray.mean()] of a non-empty array. *)
Definition np_mean (xs : list Q) : Q :=
  Qred (np_sum xs / inject_Z (Z.of_nat (List.length xs))).

(** [sklearn.metrics.mean_absolute_error]: rejects empty input and arrays of
    different lengths. *)
Definition mean_absolute_error (y_true y_hat : list Q) : result Q :=
  if (Nat.eqb (List.length y_true) 0) || negb (Nat.eqb (List.length y_true) (List.length y_hat))
  then Raise ValueError
  else Ok (np_mean (map (fun ab => Qabs (fst ab - snd ab)) (combine y_true y_hat))).

(** Line 151: [max(0.3, 1.0 - (mae / np.mean(y_test)))].  A zero mean does not
    raise in NumPy: the quotient is [inf] or [nan], [1.0 - ...] is [-inf] or
    [nan], and [max(0.3, ...)] keeps 0.3 in both cases. *)
Definition ml_confidence (mae mean_test : Q) : Q :=
  if Qeq_bool mean_test 0 then 3 # 10
  else Py.max (3 # 10) (Py.fsub 1 (Qred (mae / mean_test))).

Definition ml_reason : string :=
  "Based on historical sales patterns and machine learning".

Definition build_forecast (f : Fitted) : result ItemForecast :=
  (mae <- mean_absolute_error (y_test f) (y_pred f) ;;
   let conf := ml_confidence mae (np_mean (y_test f)) in
   Ok {| item_name := fit_item_name f;
         predicted_demand_30d := Py.int (np_sum (firstn 30 (future_predictions f)));
         predicted_demand_60d := Py.int (np_sum (firstn 60 (future_predictions f)));
         predicted_demand_90d := Py.int (np_sum (future_predictions f));
         avg_daily_demand := np_mean (future_predictions f);
         confidence := conf;
         reason := ml_reason;
         investment_required := None;
         expected_profit := None;
         roi_percentage := None |})%result.

(** The whole method: any exception inside the [try] yields the empty list. *)
Definition _ml_prediction {G} {lib : Library G}
  (sales_data : list SalesRecord) (days_ahead : Z) (now : date) : list ItemForecast :=
  match (fits <- fit_items sales_data days_ahead now ;; for_each build_forecast fits)%result with
  | Ok predictions => predictions
  | Raise _ => []
  end.

(* ================================================================== *)
(** ** Seasonal adjuster: [_apply_seasonal_adjustments] *)

Definition adjust_item (current_month : Z) (pred : ItemForecast) : ItemForecast :=
  if (current_month =? 11) || (current_month =? 12) then
    set_predicted_demand_90d pred
      (Py.int (Py.fmul (Py.of_int (predicted_demand_90d pred)) (13 # 10)))
  else if (current_month =? 6) || (current_month =? 7) || (current_month =? 8) then
    set_predicted_demand_90d pred
      (Py.int (Py.fmul (Py.of_int (predicted_demand_90d pred)) (9 # 10)))
  else pred.

Definition _apply_seasonal_adjustments (predictions : list ItemForecast) (current_month : Z)
  : list ItemForecast :=
  map (adjust_item current_month) predictions.

(* ================================================================== *)
(** ** Fallback generator: [_fallback_prediction] *)

Definition default_items : list string :=
  ["Coffee Beans (Premium)"; "Hand Sanitizer Bottles"; "Reusable Shopping Bags";
   "Energy-efficient Light Bulbs"; "Organic Tea Collection"]%string.

Definition fallback_reason : string := "Based on industry trends and market analysis".

(** Body of the [enumerate] loop, lines 229-247. *)
Definition fallback_item (budget : option Q) (i : Z) (item : string) : ItemForecast :=
  let base_demand := 50 + i * 25 in
  let conf := Py.fsub (6 # 10) (Py.fmul (Py.of_int i) (1 # 10)) in
  let prediction :=
    {| item_name := item;
       predicted_demand_30d := base_demand;
       predicted_demand_60d := base_demand * 2;
       predicted_demand_90d := base_demand * 3;
       avg_daily_demand := Qred (Py.of_int base_demand / 30);
       confidence := Py.max (4 # 10) conf;
       reason := fallback_reason;
       investment_required := None;
       expected_profit := None;
       roi_percentage := None |} in
  if Py.truthy budget then
    let inv := Py.of_int (base_demand * 150) in
    set_budget_keys prediction inv (Py.fmul inv (1 # 4)) 25
  else prediction.

Fixpoint enumerate_from {A} (i : Z) (l : list A) : list (Z * A) :=
  match l with
  | [] => []
  | x :: rest => (i, x) :: enumerate_from (i + 1) rest
  end.

(** [days_ahead] is a parameter of the method and is not read by it. *)
Definition _fallback_prediction (budget : option Q) (days_ahead : Z)
  : result (list ItemForecast) :=
  let predictions :=
    map (fun ix => fallback_item budget (fst ix) (snd ix)) (enumerate_from 0 default_items) in
  if_budget budget predictions.

(* ================================================================== *)
(** ** [predict] *)

(** Which [return] of [predict] produced the list. *)
Inductive path : Type :=
| MLPath               (* line 71 *)
| InsufficientData     (* line 59, the row-count branch *)
| ExceptionFallback.   (* line 75, the handler *)

Section Predict.
Context {G : Type} {lib : Library G}.

(** The body of the [try], given the outcome of the data generator. *)
Definition predict_body (generated : result (list SalesRecord))
  (budget : option Q) (days_ahead : Z) (now : date) : result (path * list ItemForecast) :=
  (sales_data <- generated ;;
   if (List.length sales_data <? 10)%nat then
     (fb <- _fallback_prediction budget days_ahead ;; Ok (InsufficientData, fb))
   else
     let predictions := _ml_prediction sales_data days_ahead now in
     let predictions := _apply_seasonal_adjustments predictions (month now) in
     predictions <- if_budget budget predictions ;;
     Ok (MLPath, predictions))%result.

(** [predict], with the returning branch recorded next to the list. *)
Definition predict_traced (company_id : Z) (budget : option Q) (days_ahead : Z)
  (now : date) (g : G) : result (path * list ItemForecast) * G :=
  let (generated, g1) := _get_sales_data company_id g in
  (try_except (predict_body generated budget days_ahead now)
     (fun _ => (fb <- _fallback_prediction budget days_ahead ;;
                Ok (ExceptionFallback, fb))%result),
   g1).

Definition predict (company_id : Z) (budget : option Q) (days_ahead : Z)
  (now : date) (g : G) : result (list ItemForecast) :=
  (r <- fst (predict_traced company_id budget days_ahead now g) ;; Ok (snd r))%result.

End Predict.

(* ================================================================== *)
(** ** Recommendation composer: [generate_recommendations] *)

(** The three shapes of recommendation dictionary the method builds. *)
Inductive Recommendation : Type :=
| BudgetAllocation (title description : string) (rec_items : list ItemForecast)
    (total_investment rec_expected_profit roi : Q)
| StockRecommendation (title description : string) (rec_items : list ItemForecast)
    (priority : string)
| SeasonalPrep (title description action : string).

(** The ['type'] entry. *)
Definition rec_type (r : Recommendation) : string :=
  match r with
  | BudgetAllocation _ _ _ _ _ _ => "budget_allocation"
  | StockRecommendation _ _ _ _ => "stock_recommendation"
  | SeasonalPrep _ _ _ => "seasonal_prep"
  end.

Module Format.

(** Round to the nearest integer, ties to even: what [.0f] prints of the
    magnitude. *)
Definition round_half_even (x : Q) : Z :=
  let f := Qfloor x in
  let twice := (2 * (x - inject_Z f))%Q in
  if Py.lt twice 1 then f
  else if Py.lt 1 twice then f + 1
  else if Z.even f then f else f + 1.

Definition digits (n : Z) : list ascii :=
  list_ascii_of_string (NilZero.string_of_uint (N.to_uint (Z.to_N n))).

(** Thousands separators over the digits, least significant first. *)
Fixpoint group3 (rev_digits : list ascii) (in_group : nat) : list ascii :=
  match rev_digits with
  | [] => []
  | c :: rest =>
      if Nat.eqb in_group 3 then ","%char :: c :: group3 rest 1
      else c :: group3 rest (S in_group)
  end.

(** [f'{x:,.0f}'] *)
Definition thousands (x : Q) : string :=
  let body := string_of_list_ascii (rev (group3 (rev (digits (round_half_even (Qabs x)))) 0)) in
  if Py.lt x 0 then String "-"%char body else body.

(** [f'{n}'] for a length. *)
Definition of_nat (n : nat) : string :=
  NilZero.string_of_uint (Nat.to_uint n).

End Format.

Definition holiday_prep : Recommendation :=
  SeasonalPrep "Holiday Season Preparation"
    "Increase stock by 30-40% for holiday demand"
    "Consider bulk purchasing for high-demand items".

Definition generate_recommendations (predictions : list ItemForecast) (budget : option Q)
  (current_month : Z) : list Recommendation :=
  match predictions with
  | [] => []
  | _ :: _ =>
      let top_items := firstn 3 (sort_desc confidence predictions) in
      let first :=
        match budget with
        | Some b =>
            if Py.truthy budget then
              let total_budget_needed :=
                Py.sum (map (fun p => get_or_zero (investment_required p)) top_items) in
              if Py.lt 0 total_budget_needed then
                [BudgetAllocation
                   ("Optimal Budget Allocation for Rs " ++ Format.thousands b)
                   ("Focus on top " ++ Format.of_nat (List.length top_items)
                      ++ " high-confidence items for maximum ROI")
                   top_items
                   total_budget_needed
                   (Py.sum (map (fun p => get_or_zero (expected_profit p)) top_items))
                   (Qred (Py.sum (map (fun p => get_or_zero (roi_percentage p)) top_items)
                          / inject_Z (Z.of_nat (List.length top_items))))]
              else []
            else
              [StockRecommendation "Recommended Stock Levels"
                 "Based on predicted demand, stock these items for the next 90 days"
                 top_items "high"]
        | None =>
            [StockRecommendation "Recommended Stock Levels"
               "Based on predicted demand, stock these items for the next 90 days"
               top_items "high"]
        end in
      if (current_month =? 10) || (current_month =? 11) || (current_month =? 12)
      then first ++ [holiday_prep]
      else first
  end.

(** Whether a recommendation with the given type tag is in the list. *)
Definition emits (tag : string) (recs : list Recommendation) : bool :=
  existsb (fun r => String.eqb (rec_type r) tag) recs.

(* ================================================================== *)
(** ** Two concrete libraries, used to run the pipeline on examples *)

Module Demo.

(** A linear congruential generator standing in for the Mersenne Twister. *)
Definition step (g : Z) : Z := (g * 1103515245 + 12345) mod 2 ^ 31.

Definition forecast_for (days_ahead : Z) (name : string) : Fitted :=
  {| fit_item_name := name;
     future_predictions := repeat 10%Q (Z.to_nat days_ahead);
     y_test := [10; 12]%Q;
     y_pred := [11; 11]%Q |}.

(** Every fit succeeds, ten units a day for every item. *)
Definition steady : Library Z :=
  {| mt19937_init := fun s => s;
     np_random_poisson := fun lam g => (lam + g mod 5 - 2, step g);
     np_random_normal := fun mu _ g => (mu, step g);
     np_random_uniform := fun lo hi g =>
       (Qred (lo + (hi - lo) * inject_Z (g mod 100) / 100), step g);
     np_sin := fun _ => 0%Q;
     fit_items := fun _ days_ahead _ =>
       Ok (map (forecast_for days_ahead)
             ["item_a"; "item_b"; "item_c"; "item_d"; "item_e"]%string) |}.

(** The estimator rejects its input (as it does for an empty horizon). *)
Definition failing_fit : Library Z :=
  {| mt19937_init := mt19937_init (Library := steady);
     np_random_poisson := np_random_poisson (Library := steady);
     np_random_normal := np_random_normal (Library := steady);
     np_random_uniform := np_random_uniform (Library := steady);
     np_sin := np_sin (Library := steady);
     fit_items := fun _ _ _ => Raise (LibraryError "Expected 2D array, got 1D array instead") |}.

End Demo.

(* ================================================================== *)
(** ** Predictor state: [__init__], [_load_industry_patterns], [_save_model],
       [train], [get_status] *)

(** One entry of the industry table. *)
Record IndustryPattern : Type := mkPattern {
  seasonal_multipliers : list (Z * Q);
  high_demand_categories : list string;
  low_stock_items : list string
}.

Definition _load_industry_patterns : list (string * IndustryPattern) :=
  [("retail"%string,
    mkPattern
      [(1%Z, (8 # 10)%Q); (2%Z, (9 # 10)%Q); (3%Z, 1%Q); (4%Z, (11 # 10)%Q);
       (5%Z, 1%Q); (6%Z, (9 # 10)%Q); (7%Z, (8 # 10)%Q); (8%Z, (9 # 10)%Q);
       (9%Z, 1%Q); (10%Z, (12 # 10)%Q); (11%Z, (15 # 10)%Q); (12%Z, (18 # 10)%Q)]
      ["electronics"; "clothing"; "home_garden"]%string
      ["perishables"; "seasonal_items"]%string);
   ("wholesale"%string,
    mkPattern
      [(1%Z, 1%Q); (2%Z, (11 # 10)%Q); (3%Z, (12 # 10)%Q); (4%Z, 1%Q);
       (5%Z, (11 # 10)%Q); (6%Z, 1%Q); (7%Z, (9 # 10)%Q); (8%Z, (9 # 10)%Q);
       (9%Z, 1%Q); (10%Z, (11 # 10)%Q); (11%Z, (12 # 10)%Q); (12%Z, 1%Q)]
      ["raw_materials"; "packaging"; "industrial_supplies"]%string
      ["expensive_items"; "custom_orders"]%string);
   ("services"%string,
    mkPattern
      [(1%Z, (7 # 10)%Q); (2%Z, (8 # 10)%Q); (3%Z, 1%Q); (4%Z, (11 # 10)%Q);
       (5%Z, (12 # 10)%Q); (6%Z, (11 # 10)%Q); (7%Z, 1%Q); (8%Z, 1%Q);
       (9%Z, (11 # 10)%Q); (10%Z, (12 # 10)%Q); (11%Z, (13 # 10)%Q); (12%Z, (14 # 10)%Q)]
      ["maintenance"; "consulting"; "training"]%string
      ["digital_services"; "consultation"]%string)].

(** The attributes of a [DemandPredictor] that are ever written after
    construction ([models] and [scalers] stay empty, [industry_patterns]
    stays the table above). *)
Record DemandPredictor : Type := mkPredictor {
  is_trained : bool;
  last_trained : option date
}.

(** [__init__] *)
Definition new_predictor : DemandPredictor :=
  {| is_trained := false; last_trained := None |}.

(** What [_save_model] hands to [joblib.dump]. *)
Record SavedModel : Type := mkSaved {
  saved_is_trained : bool;
  saved_last_trained : option date;
  saved_industry_patterns : list (string * IndustryPattern)
}.

(** The machine the service runs on: the file system calls of [_save_model]
    (either may raise), the text of a time stamp and of an exception. *)
Class Host : Type := {
  mkdir_exist_ok : string -> result unit;
  joblib_dump : string -> string -> SavedModel -> result unit;
  isoformat : date -> string;
  str_of_exn : exn -> string
}.

(** [f'{n}'] for an integer. *)
Definition str_of_int (n : Z) : string := NilZero.string_of_int (Z.to_int n).

Section Training.
Context {G : Type} {lib : Library G} {host : Host}.

(** [_save_model]: the directory, then the dump into
    [trained/demand_model_<id>.joblib]. *)
Definition _save_model (self : DemandPredictor) (company_id : Z) : result unit :=
  (_ <- mkdir_exist_ok "trained" ;;
   joblib_dump "trained" ("demand_model_" ++ str_of_int company_id ++ ".joblib")
     {| saved_is_trained := is_trained self;
        saved_last_trained := last_trained self;
        saved_industry_patterns := _load_industry_patterns |})%result.

(** [train]: the returned flag and the predictor as the call leaves it.  The
    two attributes are assigned before [_save_model] runs, and the list
    [_ml_prediction] returns is dropped. *)
Definition train (self : DemandPredictor) (company_id : Z) (now : date) (g : G)
  : bool * DemandPredictor * G :=
  let (generated, g1) := _get_sales_data company_id g in
  match generated with
  | Raise _ => (false, self, g1)
  | Ok sales_data =>
      if (List.length sales_data <? 30)%nat then (false, self, g1)
      else
        let _ := _ml_prediction sales_data 90 now in
        let self1 := {| is_trained := true; last_trained := Some now |} in
        match _save_model self1 company_id with
        | Ok _ => (true, self1, g1)
        | Raise _ => (false, self1, g1)
        end
  end.

(** The dictionary [get_status] returns. *)
Record Status : Type := mkStatus {
  status_is_trained : bool;
  status_last_trained : option string;
  data_points_available : nat;
  model_accuracy : option Q;
  ready_for_prediction : bool
}.

(** [get_status] has no handler: a failure of the generator propagates. *)
Definition get_status (self : DemandPredictor) (company_id : Z) (g : G)
  : result Status * G :=
  let (generated, g1) := _get_sales_data company_id g in
  ((sales_data <- generated ;;
    Ok {| status_is_trained := is_trained self;
          status_last_trained := option_map isoformat (last_trained self);
          data_points_available := List.length sales_data;
          model_accuracy := if is_trained self then Some (85 # 100) else None;
          ready_for_prediction := true |})%result,
   g1).

End Training.

(* ================================================================== *)
(** ** The HTTP layer: [verify_api_key] (utils/auth.py) and the
       [/predict/demand] route (main.py) *)

(** What a route hands back: a body, or an [HTTPException]. *)
Inductive http (A : Type) : Type :=
| Respond (body : A)
| HTTPException (status_code : Z) (detail : string).
Arguments Respond {A} body.
Arguments HTTPException {A} status_code detail.

(** Truth value of an optional string: [None] and [''] are false. *)
Definition str_truthy (s : option string) : bool :=
  match s with
  | Some (String _ _) => true
  | _ => false
  end.

(** [a != b] on optional strings. *)
Definition str_differs (a b : option string) : bool :=
  match a, b with
  | Some x, Some y => negb (String.eqb x y)
  | None, None => false
  | _, _ => true
  end.

(** [verify_api_key]: [expected] is [os.getenv('AI_API_KEY')], [api_key] the
    [X-API-KEY] header ([None] when absent). *)
Definition verify_api_key (expected api_key : option string) : http bool :=
  if negb (str_truthy expected) then Respond true
  else if negb (str_truthy api_key) || str_differs api_key expected then
    HTTPException 401 "Invalid or missing API key"
  else Respond true.

Record DemandPredictionRequest : Type := mkRequest {
  req_company_id : Z;
  req_budget : option Q;
  req_days_ahead : Z
}.

Record DemandResponse : Type := mkResponse {
  resp_predictions : list ItemForecast;
  resp_recommendations : list Recommendation;
  resp_timestamp : string
}.

Section Routes.
Context {G : Type} {lib : Library G} {host : Host}.

(** The body of [predict_demand].  [now] is the clock [predict] reads,
    [now_rec] the one [generate_recommendations] reads, [utcnow] the time
    stamp of the response. *)
Definition predict_demand_body (request : DemandPredictionRequest)
  (now now_rec utcnow : date) (g : G) : http DemandResponse * G :=
  let (traced, g1) :=
    predict_traced (req_company_id request) (req_budget request)
      (req_days_ahead request) now g in
  match traced with
  | Ok (_, predictions) =>
      (Respond
         {| resp_predictions := predictions;
            resp_recommendations :=
              generate_recommendations predictions (req_budget request) (month now_rec);
            resp_timestamp := isoformat utcnow |},
       g1)
  | Raise e => (HTTPException 500 (str_of_exn e), g1)
  end.

(** The route with its [Depends(verify_api_key)]: the body runs only after
    the key check has passed. *)
Definition predict_demand (expected api_key : option string)
  (request : DemandPredictionRequest) (now now_rec utcnow : date) (g : G)
  : http DemandResponse * G :=
  match verify_api_key expected api_key with
  | HTTPException code detail => (HTTPException code detail, g)
  | Respond _ => predict_demand_body request now now_rec utcnow g
  end.

End Routes.

(** A host whose file system accepts every write, and one whose dump fails. *)
Definition obliging_host : Host :=
  {| mkdir_exist_ok := fun _ => Ok tt;
     joblib_dump := fun _ _ _ => Ok tt;
     isoformat := fun d =>
       (str_of_int (year d) ++ "-" ++ str_of_int (month d) ++ "-" ++ str_of_int (day d))%string;
     str_of_exn := fun _ => "error"%string |}.

Definition read_only_host : Host :=
  {| mkdir_exist_ok := fun _ => Ok tt;
     joblib_dump := fun _ _ _ => Raise (LibraryError "Permission denied");
     isoformat := isoformat (Host := obliging_host);
     str_of_exn := str_of_exn (Host := obliging_host) |}.

(** An estimator that predicts no sale at all for one item over the horizon
    (an item that never sold), and ten units a day for another. *)
Definition quiet_item_fit : Library Z :=
  {| mt19937_init := mt19937_init (Library := Demo.steady);
     np_random_poisson := np_random_poisson (Library := Demo.steady);
     np_random_normal := np_random_normal (Library := Demo.steady);
     np_random_uniform := np_random_uniform (Library := Demo.steady);
     np_sin := np_sin (Library := Demo.steady);
     fit_items := fun _ days_ahead _ =>
       Ok [Demo.forecast_for days_ahead "item_a";
           {| fit_item_name := "item_e";
              future_predictions := repeat 0%Q (Z.to_nat days_ahead);
              y_test := [0; 1]%Q;
              y_pred := [0; 0]%Q |}] |}.

(* ================================================================== *)
(** ** Notions used in the statements *)

(** An item after Step 1 of the allocator, for a non-zero 90-day demand. *)
Definition priced (pred : ItemForecast) : ItemForecast :=
  let inv := Py.of_int (predicted_demand_90d pred * 100) in
  set_budget_keys pred inv (Py.fmul inv (3 # 10)) 30.

(** The [investment_required] entry, 0 when the key is absent. *)
Definition inv_of (p : ItemForecast) : Q := get_or_zero (investment_required p).

(** The fallback catalogue before any budget allocation. *)
Definition fallback_catalog (budget : option Q) : list ItemForecast :=
  map (fun ix => fallback_item budget (fst ix) (snd ix)) (enumerate_from 0 default_items).

(** The fields of a fallback item that no later step rewrites. *)
Definition same_fixed_fields (p c : ItemForecast) : Prop :=
  item_name p = item_name c /\
  predicted_demand_30d p = predicted_demand_30d c /\
  predicted_demand_60d p = predicted_demand_60d c /\
  avg_daily_demand p = avg_daily_demand c /\
  confidence p = confidence c /\
  reason p = reason c.

(** A forecast with no demand at all. *)
Definition zero_demand_item : ItemForecast :=
  mkForecast "item_e" 0 0 0 0 (3 # 10) ml_reason None None None.

(** What is known of the estimator.  Its targets are means of
    [quantity_sold] values, and a forest predicts averages of its training
    targets; so on a table without negative quantities neither the held-out
    targets nor the predictions are negative. *)
Definition targets_nonneg {G} (lib : Library G) : Prop :=
  forall table days_ahead now fits,
    Forall (fun r => 0 <= quantity_sold r) table ->
    fit_items table days_ahead now = Ok fits ->
    Forall (fun f => Forall (Qle 0) (y_test f)) fits.

Definition predictions_nonneg {G} (lib : Library G) : Prop :=
  forall table days_ahead now fits,
    Forall (fun r => 0 <= quantity_sold r) table ->
    fit_items table days_ahead now = Ok fits ->
    Forall (fun f => Forall (Qle 0) (future_predictions f)) fits.

(** The (date, item) key of a row. *)
Definition row_key (r : SalesRecord) : date * string := (sale_date r, sale_item r).

(** Months in which the seasonal adjuster scales the 90-day demand down. *)
Definition summer (m : Z) : bool := (m =? 6) || (m =? 7) || (m =? 8).

(** Months in which the composer adds the holiday recommendation. *)
Definition holiday_prep_month (m : Z) : bool := (m =? 10) || (m =? 11) || (m =? 12).

(** Confidence within a closed interval. *)
Definition confidence_in (lo hi : Q) (p : ItemForecast) : Prop :=
  (lo <= confidence p)%Q /\ (confidence p <= hi)%Q.

(** The part of the horizon invariant that every step keeps. *)
Definition horizons_nonneg (p : ItemForecast) : Prop :=
  0 <= predicted_demand_30d p /\
  predicted_demand_30d p <= predicted_demand_60d p /\
  0 <= predicted_demand_90d p.

(** The part that rewriting [predicted_demand_90d] alone can break. *)
Definition horizon_90_covers_60 (p : ItemForecast) : Prop :=
  predicted_demand_60d p <= predicted_demand_90d p.

(** The forecasts a recommendation lists. *)
Definition rec_items_of (r : Recommendation) : list ItemForecast :=
  match r with
  | BudgetAllocation _ _ its _ _ _ => its
  | StockRecommendation _ _ its _ => its
  | SeasonalPrep _ _ _ => []
  end.

(** The fields of a forecast other than [predicted_demand_90d]. *)
Definition same_but_90d (p q : ItemForecast) : Prop :=
  item_name q = item_name p /\
  predicted_demand_30d q = predicted_demand_30d p /\
  predicted_demand_60d q = predicted_demand_60d p /\
  avg_daily_demand q = avg_daily_demand p /\
  confidence q = confidence p /\
  reason q = reason p /\
  investment_required q = investment_required p /\
  expected_profit q = expected_profit p /\
  roi_percentage q = roi_percentage p.

(** No budget key is present. *)
Definition unpriced (p : ItemForecast) : Prop :=
  investment_required p = None /\ expected_profit p = None /\ roi_percentage p = None.

(** The three budget keys are present, with the allocator's margin and ROI. *)
Definition priced_at_30 (p : ItemForecast) : Prop :=
  exists inv profit,
    investment_required p = Some inv /\ expected_profit p = Some profit /\
    roi_percentage p = Some 30%Q /\ (0 < inv)%Q /\ (profit == (3 # 10) * inv)%Q.

(** The forecasts the composer lists: the three of highest confidence. *)
Definition top_items_of (predictions : list ItemForecast) : list ItemForecast :=
  firstn 3 (sort_desc confidence predictions).

(** What the budget step does to an item it accepts in full. *)
Definition stamp (budget : option Q) (p : ItemForecast) : ItemForecast :=
  if Py.truthy budget then priced p else p.

(* ================================================================== *)
(** * Properties *)

(** ** Arithmetic of the number model *)

Section PyFacts.
Local Open Scope Q_scope.

Lemma fadd_eq (x y : Q) : Py.fadd x y == x + y.
Proof. apply Qred_correct. Qed.

Lemma fsub_eq (x y : Q) : Py.fsub x y == x - y.
Proof. apply Qred_correct. Qed.

Lemma fmul_eq (x y : Q) : Py.fmul x y == x * y.
Proof. apply Qred_correct. Qed.

Lemma le_iff (x y : Q) : Py.le x y = true <-> x <= y.
Proof. apply Qle_bool_iff. Qed.

Lemma le_false_iff (x y : Q) : Py.le x y = false <-> y < x.
Proof.
  unfold Py.le. split; intro Hf.
  - apply Qnot_le_lt. intro Hle. apply Qle_bool_iff in Hle. congruence.
  - destruct (Qle_bool x y) eqn:E; [|reflexivity].
    apply Qle_bool_iff in E. lra.
Qed.

Lemma lt_iff (x y : Q) : Py.lt x y = true <-> x < y.
Proof.
  unfold Py.lt. rewrite negb_true_iff. apply (le_false_iff y x).
Qed.

Lemma lt_false_iff (x y : Q) : Py.lt x y = false <-> y <= x.
Proof.
  unfold Py.lt. rewrite negb_false_iff. apply Qle_bool_iff.
Qed.

Lemma int_nonneg (x : Q) : 0 <= x -> (0 <= Py.int x)%Z.
Proof.
  intro Hx. unfold Py.int.
  destruct (Qle_bool 0 x) eqn:E.
  - change 0%Z with (Qfloor 0). now apply Qfloor_resp_le.
  - apply Qle_bool_iff in Hx. congruence.
Qed.

Lemma int_monotone (x y : Q) : 0 <= x -> x <= y -> (Py.int x <= Py.int y)%Z.
Proof.
  intros Hx Hxy. unfold Py.int.
  assert (Hy : 0 <= y) by lra.
  apply Qle_bool_iff in Hx, Hy. rewrite Hx, Hy.
  now apply Qfloor_resp_le.
Qed.

Lemma int_of_int (z : Z) : Py.int (Py.of_int z) = z.
Proof.
  unfold Py.int, Py.of_int.
  destruct (Qle_bool 0 (inject_Z z)); [apply Qfloor_Z | apply Qceiling_Z].
Qed.

Lemma of_int_le (a b : Z) : (a <= b)%Z -> Py.of_int a <= Py.of_int b.
Proof. unfold Py.of_int. now rewrite <- Zle_Qle. Qed.

Lemma of_int_lt (a b : Z) : (a < b)%Z -> Py.of_int a < Py.of_int b.
Proof. unfold Py.of_int. now rewrite <- Zlt_Qlt. Qed.

Lemma max_lower (a b : Q) : a <= Py.max a b.
Proof.
  unfold Py.max. destruct (Py.lt a b) eqn:E.
  - apply lt_iff in E. lra.
  - lra.
Qed.

Lemma max_upper (a b c : Q) : a <= c -> b <= c -> Py.max a b <= c.
Proof. intros Ha Hb. unfold Py.max. now destruct (Py.lt a b). Qed.

(** A number stored in lowest terms is determined by its value. *)
Lemma Qred_value (x y : Q) : x == y -> Qred x = Qred y.
Proof. apply Qred_complete. Qed.

End PyFacts.

(** ** The pricing loop (Step 1 of the allocator) *)

Lemma price_item_nonzero (pred : ItemForecast) :
  predicted_demand_90d pred <> 0 -> price_item pred = Ok (priced pred).
Proof.
  intro Hd. unfold price_item, priced, Py.fdiv.
  set (inv := Py.of_int (predicted_demand_90d pred * 100)).
  assert (Hinv : ~ (inv == 0)%Q).
  { unfold inv, Py.of_int, Qeq. cbn [Qnum Qden inject_Z]. lia. }
  destruct (Qeq_bool inv 0) eqn:E.
  - apply Qeq_bool_iff in E. contradiction.
  - cbn [bind]. f_equal. f_equal.
    unfold Py.fmul. change 30%Q with (Qred 30).
    apply Qred_value.
    rewrite !Qred_correct. field. exact Hinv.
Qed.

Lemma price_item_zero (pred : ItemForecast) :
  predicted_demand_90d pred = 0 -> price_item pred = Raise ZeroDivisionError.
Proof.
  intro Hd. unfold price_item. rewrite Hd. reflexivity.
Qed.

Lemma for_each_price_nonzero (predictions : list ItemForecast) :
  Forall (fun p => predicted_demand_90d p <> 0) predictions ->
  for_each price_item predictions = Ok (map priced predictions).
Proof.
  induction 1 as [|p l Hp Hl IH]; [reflexivity|].
  cbn [for_each map]. rewrite (price_item_nonzero p Hp). cbn [bind].
  rewrite IH. reflexivity.
Qed.

Lemma for_each_price_inv (predictions out : list ItemForecast) :
  for_each price_item predictions = Ok out ->
  Forall (fun p => predicted_demand_90d p <> 0) predictions.
Proof.
  revert out. induction predictions as [|p l IH]; intros out Hout; [constructor|].
  cbn [for_each] in Hout.
  destruct (Z.eq_dec (predicted_demand_90d p) 0) as [Hz|Hnz].
  - rewrite (price_item_zero p Hz) in Hout. discriminate.
  - constructor; [exact Hnz|].
    rewrite (price_item_nonzero p Hnz) in Hout. cbn [bind] in Hout.
    destruct (for_each price_item l) as [ys|e] eqn:E; [|discriminate].
    now apply (IH ys).
Qed.

(** ** The sort by ROI *)

Section SortFacts.
Context {A : Type} (key : A -> Q).

Lemma insert_desc_tie (x : A) (l : list A) :
  (forall y, In y l -> (key y == key x)%Q) -> insert_desc key x l = x :: l.
Proof.
  destruct l as [|y rest]; [reflexivity|]. intro Hall. cbn [insert_desc].
  assert (E : Py.lt (key x) (key y) = false).
  { apply lt_false_iff. rewrite (Hall y (or_introl eq_refl)). apply Qle_refl. }
  now rewrite E.
Qed.

(** With one key throughout, the stable sort returns its input. *)
Lemma sort_desc_ties (k : Q) (l : list A) :
  Forall (fun x => (key x == k)%Q) l -> sort_desc key l = l.
Proof.
  induction 1 as [|x l Hx Hl IH]; [reflexivity|].
  unfold sort_desc in *. cbn [fold_right]. rewrite IH.
  apply insert_desc_tie. intros y Hy.
  rewrite Forall_forall in Hl. rewrite (Hl y Hy), Hx. reflexivity.
Qed.

Lemma insert_desc_length (x : A) (l : list A) :
  List.length (insert_desc key x l) = S (List.length l).
Proof.
  induction l as [|y rest IH]; [reflexivity|]. cbn [insert_desc].
  destruct (Py.lt (key x) (key y)); cbn [List.length]; [now rewrite IH | reflexivity].
Qed.

Lemma sort_desc_length (l : list A) : List.length (sort_desc key l) = List.length l.
Proof.
  induction l as [|x l IH]; [reflexivity|].
  unfold sort_desc in *. cbn [fold_right]. rewrite insert_desc_length.
  cbn [List.length]. now rewrite IH.
Qed.
End SortFacts.

Lemma priced_sorted_nonzero (predictions : list ItemForecast) :
  Forall (fun p => predicted_demand_90d p <> 0) predictions ->
  priced_sorted predictions = Ok (map priced predictions).
Proof.
  intro Hnz. unfold priced_sorted. rewrite (for_each_price_nonzero _ Hnz). cbn [bind].
  f_equal. apply (sort_desc_ties _ 30%Q).
  apply Forall_forall. intros p Hp. apply in_map_iff in Hp as (p0 & <- & _).
  reflexivity.
Qed.

Lemma priced_sorted_inv (predictions sorted : list ItemForecast) :
  priced_sorted predictions = Ok sorted ->
  Forall (fun p => predicted_demand_90d p <> 0) predictions /\ sorted = map priced predictions.
Proof.
  intro Hs. unfold priced_sorted in Hs.
  destruct (for_each price_item predictions) as [ys|e] eqn:E; [|discriminate].
  pose proof (for_each_price_inv _ _ E) as Hnz. split; [exact Hnz|].
  pose proof (priced_sorted_nonzero _ Hnz) as Hp. unfold priced_sorted in Hp.
  rewrite E in Hp. cbn [bind] in Hs, Hp. congruence.
Qed.

(** ** The greedy loop (Step 3 of the allocator) *)

Section AllocateFacts.
Local Open Scope Q_scope.

Lemma total_investment_cons (p : ItemForecast) (l : list ItemForecast) :
  total_investment_of (p :: l) = inv_of p + total_investment_of l.
Proof. reflexivity. Qed.

Lemma total_investment_app (l1 l2 : list ItemForecast) :
  total_investment_of (l1 ++ l2) == total_investment_of l1 + total_investment_of l2.
Proof.
  induction l1 as [|p l1 IH].
  - change (total_investment_of []) with 0. cbn [app]. ring.
  - change ((p :: l1) ++ l2)%list with (p :: (l1 ++ l2))%list.
    rewrite !total_investment_cons, IH. ring.
Qed.

(** Once the running total has reached the budget, items that cost
    something are all skipped. *)
Lemma allocate_exhausted (l : list ItemForecast) (budget total : Q) :
  budget <= total -> Forall (fun p => 0 < inv_of p) l -> allocate budget total l = [].
Proof.
  intros Hfull Hpos. induction Hpos as [|p l Hp Hl IH]; [reflexivity|].
  cbn [allocate]. fold (inv_of p).
  assert (E1 : Py.le (Py.fadd total (inv_of p)) budget = false).
  { apply le_false_iff. rewrite fadd_eq. lra. }
  assert (E2 : Py.lt total budget = false) by (apply lt_false_iff; exact Hfull).
  rewrite E1, E2. exact IH.
Qed.

(** The loop accepts a prefix of its input and then, at most, a partial
    copy of the next item, priced at what is left of the budget. *)
Lemma allocate_prefix (l : list ItemForecast) :
  forall budget total : Q,
    total <= budget -> Forall (fun p => 0 < inv_of p) l ->
    exists k : nat,
      (k <= List.length l)%nat /\
      total + total_investment_of (firstn k l) <= budget /\
      (allocate budget total l = firstn k l \/
       exists pred r,
         nth_error l k = Some pred /\
         r == budget - (total + total_investment_of (firstn k l)) /\
         1000 <= r /\
         allocate budget total l = firstn k l ++ [partial_item pred r]).
Proof.
  induction l as [|p l IH]; intros budget total Hle Hpos.
  - exists 0%nat. cbn. repeat split; [lia | lra | now left].
  - inversion Hpos as [|? ? Hp Hl]; subst. cbn [allocate]. fold (inv_of p).
    destruct (Py.le (Py.fadd total (inv_of p)) budget) eqn:E1.
    + apply le_iff in E1.
      destruct (IH budget (Py.fadd total (inv_of p)) E1 Hl) as (k & Hk & Hsum & Hout).
      rewrite fadd_eq in E1.
      exists (S k). cbn [firstn nth_error List.length]. rewrite total_investment_cons.
      split; [lia|]. split; [rewrite fadd_eq in Hsum; lra|].
      destruct Hout as [Hout | (pred & r & Hnth & Hr & Hmin & Hout)].
      * left. now rewrite Hout.
      * right. exists pred, r. repeat split; try assumption.
        -- rewrite Hr, fadd_eq. lra.
        -- now rewrite Hout.
    + exists 0%nat. cbn [firstn nth_error total_investment_of fold_right app].
      split; [lia|]. split; [lra|].
      destruct (Py.lt total budget) eqn:E2.
      * destruct (Py.le 1000 (Py.fsub budget total)) eqn:E3; [|now left].
        right. exists p, (Py.fsub budget total). repeat split.
        -- rewrite fsub_eq. lra.
        -- now apply le_iff in E3.
      * left. apply allocate_exhausted; [now apply lt_false_iff | exact Hl].
Qed.

End AllocateFacts.

Lemma inv_of_priced (p : ItemForecast) :
  inv_of (priced p) = Py.of_int (predicted_demand_90d p * 100).
Proof. reflexivity. Qed.

Lemma priced_positive (predictions : list ItemForecast) :
  Forall (fun p => 0 < predicted_demand_90d p) predictions ->
  Forall (fun p => (0 < inv_of p)%Q) (map priced predictions).
Proof.
  intro Hpos. apply Forall_forall. intros q Hq.
  apply in_map_iff in Hq as (p & <- & Hp).
  rewrite Forall_forall in Hpos. specialize (Hpos p Hp).
  rewrite inv_of_priced. change 0%Q with (Py.of_int 0). apply of_int_lt. lia.
Qed.

(** C1, as stated, at a negative budget: nothing is allocated, and the empty
    allocation (total 0) exceeds the budget. *)
Lemma budget_cap_fails_below_zero :
  exists out,
    _apply_budget_constraints
      [mkForecast "item_a" 3 6 9 (1 # 10) (1 # 2) ml_reason None None None] (-1) = Ok out /\
    ~ (total_investment_of out <= -1)%Q.
Proof.
  exists []. split; [reflexivity|]. cbn. intro Hle. lra.
Qed.

(** C1 (amended): for a budget that is not negative and forecasts with positive
    90-day demand, the allocator returns a list whose investments total at
    most the budget.  The list is the first [k] input items, priced, followed
    by at most one partial item; that item is a copy of input item [k], the
    one right after the last accepted item, and its investment is the
    budget left after the accepted ones, which is at least 1000. *)
Theorem budget_allocation_within_budget
  (predictions : list ItemForecast) (budget : Q) :
  (0 <= budget)%Q ->
  Forall (fun p => 0 < predicted_demand_90d p) predictions ->
  exists (out : list ItemForecast) (k : nat),
    _apply_budget_constraints predictions budget = Ok out /\
    (total_investment_of out <= budget)%Q /\
    (k <= List.length predictions)%nat /\
    let accepted := map priced (firstn k predictions) in
    (out = accepted \/
     exists pred r,
       nth_error predictions k = Some pred /\
       (r == budget - total_investment_of accepted)%Q /\
       (1000 <= r)%Q /\
       investment_required (partial_item (priced pred) r) = Some r /\
       out = accepted ++ [partial_item (priced pred) r]).
Proof.
  intros Hbudget Hpos.
  assert (Hnz : Forall (fun p => predicted_demand_90d p <> 0) predictions).
  { eapply Forall_impl; [|exact Hpos]. cbn. intros p Hp. lia. }
  unfold _apply_budget_constraints. rewrite (priced_sorted_nonzero _ Hnz). cbn [bind].
  destruct (allocate_prefix (map priced predictions) budget 0 Hbudget (priced_positive _ Hpos))
    as (k & Hk & Hsum & Hout).
  rewrite length_map in Hk. rewrite firstn_map in Hsum, Hout.
  exists (allocate budget 0 (map priced predictions)), k.
  split; [reflexivity|]. cbn zeta.
  destruct Hout as [Hout | (pred & r & Hnth & Hr & Hmin & Hout)].
  - rewrite Hout. repeat split; [lra | exact Hk | now left].
  - rewrite Hout. split; [|split; [exact Hk|]].
    + rewrite total_investment_app. cbn. lra.
    + right. rewrite nth_error_map in Hnth.
      destruct (nth_error predictions k) as [p0|] eqn:E; [|discriminate].
      injection Hnth as <-.
      exists p0, r. repeat split; try assumption. rewrite Hr. lra.
Qed.

Lemma budget_allocation_within_budget_witness :
  exists (out : list ItemForecast) (k : nat),
    _apply_budget_constraints
      [mkForecast "item_a" 30 60 90 1 (1 # 2) ml_reason None None None;
       mkForecast "item_b" 40 80 120 (4 # 3) (1 # 2) ml_reason None None None] 15000 = Ok out /\
    (total_investment_of out <= 15000)%Q /\
    (k <= 2)%nat /\
    let accepted :=
      map priced
        (firstn k
           [mkForecast "item_a" 30 60 90 1 (1 # 2) ml_reason None None None;
            mkForecast "item_b" 40 80 120 (4 # 3) (1 # 2) ml_reason None None None]) in
    (out = accepted \/
     exists pred r,
       nth_error
         [mkForecast "item_a" 30 60 90 1 (1 # 2) ml_reason None None None;
          mkForecast "item_b" 40 80 120 (4 # 3) (1 # 2) ml_reason None None None] k
         = Some pred /\
       (r == 15000 - total_investment_of accepted)%Q /\
       (1000 <= r)%Q /\
       investment_required (partial_item (priced pred) r) = Some r /\
       out = accepted ++ [partial_item (priced pred) r]).
Proof.
  apply (budget_allocation_within_budget
           [mkForecast "item_a" 30 60 90 1 (1 # 2) ml_reason None None None;
            mkForecast "item_b" 40 80 120 (4 # 3) (1 # 2) ml_reason None None None] 15000).
  - unfold Qle. simpl. lia.
  - repeat constructor.
Defined.

(** What the loop returns is made of input items, plus at most one partial
    copy of an input item at the end. *)
Lemma allocate_shape (l : list ItemForecast) :
  forall budget total : Q,
  exists full part,
    allocate budget total l = full ++ part /\
    incl full l /\
    (part = [] \/
     exists pred r, In pred l /\ (1000 <= r)%Q /\ part = [partial_item pred r]).
Proof.
  induction l as [|p l IH]; intros budget total.
  - exists [], []. repeat split; [apply incl_refl | now left].
  - cbn [allocate].
    destruct (Py.le _ budget).
    + destruct (IH budget (Py.fadd total (get_or_zero (investment_required p))))
        as (full & part & Hout & Hincl & Hpart).
      exists (p :: full), part. rewrite Hout. repeat split.
      * intros x [<-|Hx]; [now left | right; now apply Hincl].
      * destruct Hpart as [->|(pred & r & Hin & Hr & ->)]; [now left|].
        right. exists pred, r. repeat split; [now right | exact Hr].
    + destruct (Py.lt total budget).
      * destruct (Py.le 1000 (Py.fsub budget total)) eqn:E.
        -- exists [], [partial_item p (Py.fsub budget total)].
           repeat split; [intros x [] |].
           right. exists p, (Py.fsub budget total).
           repeat split; [now left | now apply le_iff in E].
        -- exists [], []. repeat split; [intros x [] | now left].
      * destruct (IH budget total) as (full & part & Hout & Hincl & Hpart).
        exists full, part. rewrite Hout. repeat split.
        -- intros x Hx. right. now apply Hincl.
        -- destruct Hpart as [->|(pred & r & Hin & Hr & ->)]; [now left|].
           right. exists pred, r. repeat split; [now right | exact Hr].
Qed.

(** The same for the whole allocator, in terms of its input. *)
Lemma allocator_shape (predictions out : list ItemForecast) (budget : Q) :
  _apply_budget_constraints predictions budget = Ok out ->
  exists full part,
    out = full ++ part /\
    (forall p, In p full -> exists p0, In p0 predictions /\ p = priced p0) /\
    (part = [] \/
     exists p0 r, In p0 predictions /\ (1000 <= r)%Q /\ part = [partial_item (priced p0) r]).
Proof.
  unfold _apply_budget_constraints. intro Hout.
  destruct (priced_sorted predictions) as [sorted|e] eqn:E; [|discriminate].
  apply priced_sorted_inv in E as [_ ->]. cbn [bind] in Hout. injection Hout as <-.
  destruct (allocate_shape (map priced predictions) budget 0)
    as (full & part & Hout & Hincl & Hpart).
  exists full, part. split; [exact Hout|]. split.
  - intros p Hp. apply Hincl, in_map_iff in Hp as (p0 & <- & Hp0). now exists p0.
  - destruct Hpart as [->|(pred & r & Hin & Hr & ->)]; [now left|].
    apply in_map_iff in Hin as (p0 & <- & Hp0). right. now exists p0, r.
Qed.

Lemma allocator_returns (predictions : list ItemForecast) (budget : Q) :
  Forall (fun p => predicted_demand_90d p <> 0) predictions ->
  exists out, _apply_budget_constraints predictions budget = Ok out.
Proof.
  intro Hnz. unfold _apply_budget_constraints.
  rewrite (priced_sorted_nonzero _ Hnz). cbn [bind]. eauto.
Qed.

Lemma allocator_raises (predictions : list ItemForecast) (budget : Q) (e : exn) :
  _apply_budget_constraints predictions budget = Raise e ->
  e = ZeroDivisionError /\ Exists (fun p => predicted_demand_90d p = 0) predictions.
Proof.
  unfold _apply_budget_constraints, priced_sorted. intro Hr.
  induction predictions as [|p l IH]; [discriminate|].
  cbn [for_each] in Hr.
  destruct (Z.eq_dec (predicted_demand_90d p) 0) as [Hz|Hnz].
  - rewrite (price_item_zero p Hz) in Hr. cbn [bind] in Hr. injection Hr as <-.
    split; [reflexivity | now left].
  - rewrite (price_item_nonzero p Hnz) in Hr. cbn [bind] in Hr.
    destruct (for_each price_item l) as [ys|e'] eqn:E; [discriminate|].
    cbn [bind] in Hr, IH. destruct (IH Hr) as [He Hex]. split; [exact He | now right].
Qed.

(** ** C6: Step 1 of the allocator *)

(** C6: on an item whose 90-day demand is 0 the ROI quotient of line 192 is
    0.0 / 0, so Step 1 raises [ZeroDivisionError] instead of yielding 30.0,
    and the allocator returns nothing for a list that holds such an item.
    Step 1 raises exactly on those items. *)
Theorem step1_zero_demand_raises :
  price_item zero_demand_item = Raise ZeroDivisionError /\
  _apply_budget_constraints
    [mkForecast "item_a" 30 60 90 1 (1 # 2) ml_reason None None None; zero_demand_item]
    300000 = Raise ZeroDivisionError /\
  (forall pred,
     price_item pred = Raise ZeroDivisionError <-> predicted_demand_90d pred = 0).
Proof.
  split; [reflexivity|]. split; [reflexivity|].
  intro pred. split.
  - intro Hr. destruct (Z.eq_dec (predicted_demand_90d pred) 0) as [Hz|Hnz]; [exact Hz|].
    rewrite (price_item_nonzero pred Hnz) in Hr. discriminate.
  - apply price_item_zero.
Qed.

(** Away from zero, Step 1 gives the three values the specification names. *)
Lemma step1_values (pred : ItemForecast) :
  predicted_demand_90d pred <> 0 ->
  exists q,
    price_item pred = Ok q /\
    investment_required q = Some (Py.of_int (predicted_demand_90d pred * 100)) /\
    expected_profit q = Some (Py.fmul (Py.of_int (predicted_demand_90d pred * 100)) (3 # 10)) /\
    roi_percentage q = Some 30%Q.
Proof.
  intro Hnz. exists (priced pred). rewrite (price_item_nonzero pred Hnz).
  repeat split.
Qed.

(** ** C3 and C10: the fallback generator *)

Lemma fallback_catalog_demand (budget : option Q) :
  Forall (fun p => 0 < predicted_demand_90d p) (fallback_catalog budget).
Proof.
  unfold fallback_catalog, fallback_item. cbn [enumerate_from default_items map fst snd].
  destruct (Py.truthy budget); repeat constructor.
Qed.

Lemma fallback_returns (budget : option Q) (days_ahead : Z) :
  exists out, _fallback_prediction budget days_ahead = Ok out.
Proof.
  unfold _fallback_prediction, if_budget. fold (fallback_catalog budget).
  destruct budget as [b|]; [|eauto].
  destruct (Py.truthy (Some b)); [|eauto].
  apply allocator_returns.
  eapply Forall_impl; [|apply fallback_catalog_demand]. cbn. intros p Hp. lia.
Qed.

(** C3: with a budget that covers the whole catalogue, the three budget keys
    of the fallback output are those of the allocator's Step 1 (unit cost
    100 on the 90-day demand, margin 0.3, ROI 30); the values the fallback
    generator had written (unit cost 150 on the base demand, margin 0.25,
    ROI 25) are overwritten. *)
Theorem fallback_budget_keys_overwritten :
  map investment_required (fallback_catalog (Some 200000%Q))
    = [Some 7500; Some 11250; Some 15000; Some 18750; Some 22500]%Q /\
  map roi_percentage (fallback_catalog (Some 200000%Q))
    = [Some 25; Some 25; Some 25; Some 25; Some 25]%Q /\
  exists out,
    _fallback_prediction (Some 200000%Q) 90 = Ok out /\
    map item_name out = default_items /\
    map investment_required out
      = [Some 15000; Some 22500; Some 30000; Some 37500; Some 45000]%Q /\
    map expected_profit out
      = [Some 4500; Some 6750; Some 9000; Some 11250; Some 13500]%Q /\
    map roi_percentage out = [Some 30; Some 30; Some 30; Some 30; Some 30]%Q.
Proof.
  split; [reflexivity|]. split; [reflexivity|].
  eexists. split; [vm_compute; reflexivity|]. repeat split.
Qed.

(** Whatever the budget, no item leaves the fallback path with ROI 25. *)
Lemma fallback_roi_is_30 (b : Q) (days_ahead : Z) (out : list ItemForecast) :
  Py.truthy (Some b) = true ->
  _fallback_prediction (Some b) days_ahead = Ok out ->
  Forall (fun p => roi_percentage p = Some 30%Q) out.
Proof.
  intros Hb Hout. unfold _fallback_prediction, if_budget in Hout. rewrite Hb in Hout.
  apply allocator_shape in Hout as (full & part & -> & Hfull & Hpart).
  apply Forall_app. split.
  - apply Forall_forall. intros p Hp. destruct (Hfull p Hp) as (p0 & _ & ->). reflexivity.
  - destruct Hpart as [->|(p0 & r & _ & _ & ->)]; repeat constructor.
Qed.

(** C10: the fallback output does not depend on [days_ahead] (and the method
    takes no company identifier): two calls with one budget return the same
    list.  Without a budget that list is the fixed catalogue, and with one
    every returned item carries the name, 30- and 60-day demands, daily
    average, confidence and rationale of a catalogue entry. *)
Theorem fallback_ignores_horizon (budget : option Q) (days1 days2 : Z) :
  _fallback_prediction budget days1 = _fallback_prediction budget days2 /\
  _fallback_prediction None days1 = Ok (fallback_catalog None) /\
  exists out,
    _fallback_prediction budget days1 = Ok out /\
    Forall (fun p => exists c, In c (fallback_catalog None) /\ same_fixed_fields p c) out.
Proof.
  split; [reflexivity|]. split; [reflexivity|].
  assert (Hcat : forall p, In p (fallback_catalog budget) ->
                   exists c, In c (fallback_catalog None) /\ same_fixed_fields p c).
  { intros p Hp. unfold fallback_catalog in *.
    apply in_map_iff in Hp as ([i item] & <- & Hin).
    exists (fallback_item None i item). split.
    - apply in_map_iff. now exists (i, item).
    - unfold fallback_item. cbn [fst snd Py.truthy].
      destruct (Py.truthy budget); repeat split. }
  destruct (fallback_returns budget days1) as (out & Hout). exists out.
  split; [exact Hout|]. unfold _fallback_prediction, if_budget in Hout.
  fold (fallback_catalog budget) in Hout.
  assert (Hplain : Ok (fallback_catalog budget) = Ok out ->
            Forall (fun p => exists c, In c (fallback_catalog None) /\ same_fixed_fields p c) out).
  { intros [= <-]. apply Forall_forall. exact Hcat. }
  destruct budget as [b|]; [|now apply Hplain].
  destruct (Py.truthy (Some b)); [|now apply Hplain].
  apply allocator_shape in Hout as (full & part & -> & Hfull & Hpart).
  apply Forall_app. split.
  - apply Forall_forall. intros p Hp. destruct (Hfull p Hp) as (p0 & Hp0 & ->).
    destruct (Hcat p0 Hp0) as (c & Hc & Hsame). exists c. split; [exact Hc | exact Hsame].
  - destruct Hpart as [->|(p0 & r & Hp0 & _ & ->)]; [constructor|].
    constructor; [|constructor].
    destruct (Hcat p0 Hp0) as (c & Hc & Hsame). exists c. split; [exact Hc | exact Hsame].
Qed.

(** ** C8: the recommendation composer *)

Lemma emits_app (tag : string) (l1 l2 : list Recommendation) :
  emits tag (l1 ++ l2) = emits tag l1 || emits tag l2.
Proof. apply existsb_app. Qed.

(** C8, as stated, on the empty prediction list in October: line 257 returns
    before any recommendation is built. *)
Lemma no_seasonal_prep_without_predictions :
  generate_recommendations [] (Some 300000%Q) 10 = [] /\
  emits "seasonal_prep" (generate_recommendations [] (Some 300000%Q) 10) = false.
Proof. split; reflexivity. Qed.

(** C8 (amended): when the prediction list is not empty and the current month
    is October, November or December, the composer emits the "seasonal_prep"
    recommendation, whatever the budget. *)
Theorem seasonal_prep_in_holiday_months
  (predictions : list ItemForecast) (budget : option Q) (current_month : Z) :
  predictions <> [] ->
  holiday_prep_month current_month = true ->
  emits "seasonal_prep" (generate_recommendations predictions budget current_month) = true /\
  In holiday_prep (generate_recommendations predictions budget current_month).
Proof.
  intros Hne Hm. destruct predictions as [|p rest]; [contradiction|].
  unfold generate_recommendations. unfold holiday_prep_month in Hm. rewrite Hm.
  split.
  - rewrite emits_app. apply orb_true_r.
  - apply in_or_app. right. now left.
Qed.

Lemma seasonal_prep_in_holiday_months_witness :
  emits "seasonal_prep"
    (generate_recommendations (fallback_catalog None) (Some 300000%Q) 11) = true /\
  In holiday_prep (generate_recommendations (fallback_catalog None) (Some 300000%Q) 11).
Proof.
  apply (seasonal_prep_in_holiday_months (fallback_catalog None) (Some 300000%Q) 11).
  - discriminate.
  - reflexivity.
Defined.

(** In the other months the tag is absent. *)
Lemma no_seasonal_prep_in_other_months
  (predictions : list ItemForecast) (budget : option Q) (current_month : Z) :
  holiday_prep_month current_month = false ->
  emits "seasonal_prep" (generate_recommendations predictions budget current_month) = false.
Proof.
  intro Hm. destruct predictions as [|p rest]; [reflexivity|].
  unfold generate_recommendations. unfold holiday_prep_month in Hm. rewrite Hm.
  destruct budget as [b|]; [|reflexivity].
  destruct (Py.truthy (Some b)); [|reflexivity].
  destruct (Py.lt 0 _); reflexivity.
Qed.

(** ** C4 and C9: the synthetic data generator *)

Section GeneratorFacts.
Context {G : Type} {lib : Library G}.

Lemma rand_for_keys {A B K} (f : A -> Rand G (list B)) (key : B -> K) (ks : A -> list K) :
  (forall a g, map key (fst (f a g)) = ks a) ->
  forall l g, map key (fst (rand_for f l g)) = flat_map ks l.
Proof.
  intros Hf l. induction l as [|a l IH]; intro g; [reflexivity|].
  cbn [rand_for flat_map]. unfold rbind, rret.
  specialize (Hf a g). destruct (f a g) as [ys g1].
  specialize (IH g1). destruct (rand_for f l g1) as [zs g2].
  cbn [fst] in *. now rewrite map_app, Hf, IH.
Qed.

Lemma rand_for_Forall {A B} (f : A -> Rand G (list B)) (P : B -> Prop) :
  (forall a g, Forall P (fst (f a g))) ->
  forall l g, Forall P (fst (rand_for f l g)).
Proof.
  intros Hf l. induction l as [|a l IH]; intro g; [constructor|].
  cbn [rand_for]. unfold rbind, rret.
  specialize (Hf a g). destruct (f a g) as [ys g1].
  specialize (IH g1). destruct (rand_for f l g1) as [zs g2].
  cbn [fst] in *. apply Forall_app. now split.
Qed.

Lemma gen_row_shape (d : date) (item : string) (g : G) :
  exists qty unit_price,
    fst (gen_row d item g) = [mkSale d item qty unit_price] /\ 0 <= qty.
Proof.
  unfold gen_row, rbind, rret.
  destruct (np_random_poisson 10 g) as [base_sales g1].
  destruct (np_random_normal 0 (1 # 10) g1) as [jitter g2].
  destruct (np_random_uniform 50 200 g2) as [unit_price g3].
  eexists _, unit_price. split; [reflexivity|]. apply Z.le_max_l.
Qed.

Lemma flat_map_pairs (ds : list date) (its : list string) :
  flat_map (fun d => flat_map (fun it => [(d, it)]) its) ds = list_prod ds its.
Proof.
  induction ds as [|d ds IH]; [reflexivity|].
  cbn [flat_map list_prod]. rewrite IH. f_equal.
Qed.

(** The table has one row per (date, item) pair, dates outermost, and no
    negative quantity, whatever the generator draws. *)
Lemma gen_table_rows (g : G) :
  map row_key (fst (gen_table g)) = list_prod dates items /\
  Forall (fun r => 0 <= quantity_sold r) (fst (gen_table g)).
Proof.
  unfold gen_table. split.
  - rewrite <- flat_map_pairs.
    apply (rand_for_keys _ row_key (fun d => flat_map (fun it => [(d, it)]) items)).
    intros d g1.
    apply (rand_for_keys _ row_key (fun it => [(d, it)])).
    intros it g2. destruct (gen_row_shape d it g2) as (qty & pr & -> & _). reflexivity.
  - apply rand_for_Forall. intros d g1. apply rand_for_Forall. intros it g2.
    destruct (gen_row_shape d it g2) as (qty & pr & -> & Hq). now repeat constructor.
Qed.

Lemma dates_span :
  List.length dates = 670%nat /\
  hd_error dates = Some (mkDate 2023 1 1) /\
  last dates (mkDate 0 0 0) = mkDate 2024 10 31.
Proof. vm_compute. repeat split. Qed.

Lemma gen_table_length (g : G) : List.length (fst (gen_table g)) = 3350%nat.
Proof.
  rewrite <- (length_map row_key), (proj1 (gen_table_rows g)), length_prod.
  rewrite (proj1 dates_span). reflexivity.
Qed.

Lemma seed_accepts (company_id : Z) :
  0 <= company_id < 2 ^ 32 -> np_random_seed company_id = Ok (mt19937_init company_id).
Proof.
  intros [Hlo Hhi]. unfold np_random_seed.
  apply Z.leb_le in Hlo. apply Z.ltb_lt in Hhi. now rewrite Hlo, Hhi.
Qed.

Lemma seed_rejects (company_id : Z) :
  ~ (0 <= company_id < 2 ^ 32) -> np_random_seed company_id = Raise ValueError.
Proof.
  intro Hout. unfold np_random_seed.
  destruct (0 <=? company_id) eqn:E1; [|reflexivity].
  destruct (company_id <? 2 ^ 32) eqn:E2; [|reflexivity].
  apply Z.leb_le in E1. apply Z.ltb_lt in E2. exfalso. apply Hout. now split.
Qed.

(** What the generator returns, by the identifier. *)
Lemma sales_data_outcome (company_id : Z) (g : G) :
  (0 <= company_id < 2 ^ 32 /\
   fst (_get_sales_data company_id g) = Ok (fst (gen_table (mt19937_init company_id)))) \/
  (~ (0 <= company_id < 2 ^ 32) /\ fst (_get_sales_data company_id g) = Raise ValueError).
Proof.
  unfold _get_sales_data.
  destruct (Z_le_dec 0 company_id) as [Hlo|Hlo];
    [destruct (Z_lt_dec company_id (2 ^ 32)) as [Hhi|Hhi]|].
  - left. split; [now split|]. rewrite (seed_accepts company_id (conj Hlo Hhi)).
    now destruct (gen_table (mt19937_init company_id)).
  - right. assert (Hout : ~ (0 <= company_id < 2 ^ 32)) by lia.
    split; [exact Hout|]. now rewrite (seed_rejects company_id Hout).
  - right. assert (Hout : ~ (0 <= company_id < 2 ^ 32)) by lia.
    split; [exact Hout|]. now rewrite (seed_rejects company_id Hout).
Qed.

Lemma sales_data_sound (company_id : Z) (g : G) (table : list SalesRecord) :
  fst (_get_sales_data company_id g) = Ok table ->
  List.length table = 3350%nat /\
  map row_key table = list_prod dates items /\
  Forall (fun r => 0 <= quantity_sold r) table.
Proof.
  intro Ht.
  destruct (sales_data_outcome company_id g) as [[_ E]|[_ E]]; rewrite E in Ht; [|discriminate].
  injection Ht as <-. split; [apply gen_table_length | apply gen_table_rows].
Qed.

End GeneratorFacts.

(** C4: the table depends on the company identifier only.  The call reseeds
    the global generator, so the state it finds is irrelevant: a second call
    right after the first (on the state the first one left) returns the same
    outcome, and so do calls from any two states. *)
Theorem sales_data_deterministic
  {G : Type} {lib : Library G} (company_id : Z) (g g' : G) :
  (let (first, g1) := _get_sales_data company_id g in
   let (second, _) := _get_sales_data company_id g1 in
   first = second) /\
  fst (_get_sales_data company_id g) = fst (_get_sales_data company_id g').
Proof.
  unfold _get_sales_data.
  destruct (np_random_seed company_id) as [g0|e]; [|split; reflexivity].
  destruct (gen_table g0) as [table g1]. split; reflexivity.
Qed.

(** ** [predict]: which branch returns *)

Section PredictFacts.
Context {G : Type} {lib : Library G}.

Lemma predict_traced_unfold (company_id : Z) (budget : option Q) (days_ahead : Z)
  (now : date) (g : G) :
  fst (predict_traced company_id budget days_ahead now g)
  = try_except
      (predict_body (fst (_get_sales_data company_id g)) budget days_ahead now)
      (fun _ => (fb <- _fallback_prediction budget days_ahead ;;
                 Ok (ExceptionFallback, fb))%result).
Proof.
  unfold predict_traced. now destruct (_get_sales_data company_id g).
Qed.

(** On a generated table the row-count test fails and the ML path runs. *)
Lemma predict_body_generated (table : list SalesRecord) (budget : option Q)
  (days_ahead : Z) (now : date) :
  List.length table = 3350%nat ->
  predict_body (Ok table) budget days_ahead now
  = (predictions <-
       if_budget budget
         (_apply_seasonal_adjustments (_ml_prediction table days_ahead now) (month now)) ;;
     Ok (MLPath, predictions))%result.
Proof.
  intro Hlen. unfold predict_body. cbn [bind]. rewrite Hlen. reflexivity.
Qed.

(** The two ways out of [predict]: the ML path on a generated table, or the
    handler, after the generator or the allocator has raised. *)
Lemma predict_traced_cases (company_id : Z) (budget : option Q) (days_ahead : Z)
  (now : date) (g : G) :
  (exists table out,
     fst (_get_sales_data company_id g) = Ok table /\
     if_budget budget
       (_apply_seasonal_adjustments (_ml_prediction table days_ahead now) (month now))
       = Ok out /\
     fst (predict_traced company_id budget days_ahead now g) = Ok (MLPath, out)) \/
  (exists out,
     ((exists e, fst (_get_sales_data company_id g) = Raise e) \/
      (exists table e,
         fst (_get_sales_data company_id g) = Ok table /\
         if_budget budget
           (_apply_seasonal_adjustments (_ml_prediction table days_ahead now) (month now))
           = Raise e)) /\
     _fallback_prediction budget days_ahead = Ok out /\
     fst (predict_traced company_id budget days_ahead now g) = Ok (ExceptionFallback, out)).
Proof.
  rewrite predict_traced_unfold.
  destruct (fallback_returns budget days_ahead) as (fb & Hfb).
  destruct (fst (_get_sales_data company_id g)) as [table|e] eqn:Egen.
  - destruct (sales_data_sound company_id g table Egen) as (Hlen & _).
    rewrite (predict_body_generated table budget days_ahead now Hlen).
    destruct (if_budget budget _) as [out|e] eqn:Ebud; cbn [bind try_except].
    + left. exists table, out. repeat split. exact Ebud.
    + right. exists fb. split; [right; now exists table, e|].
      split; [exact Hfb|]. rewrite Hfb. reflexivity.
  - right. exists fb. split; [left; now exists e|].
    split; [exact Hfb|]. cbn [predict_body bind try_except]. rewrite Hfb. reflexivity.
Qed.

Lemma if_budget_nil (budget : option Q) : if_budget budget [] = Ok [].
Proof.
  unfold if_budget. destruct budget as [b|]; [|reflexivity].
  now destruct (Py.truthy (Some b)).
Qed.

End PredictFacts.

(** C9, as stated, at the identifier -1: the seeding call rejects it, the
    generator returns no table, and [predict] serves the fallback catalogue
    from its exception handler. *)
Lemma generator_rejects_identifier_minus_one :
  fst (_get_sales_data (lib := Demo.steady) (-1) 0) = Raise ValueError /\
  fst (predict_traced (lib := Demo.steady) (-1) None 90 (mkDate 2026 11 4) 0)
    = Ok (ExceptionFallback, fallback_catalog None).
Proof. split; reflexivity. Qed.

(** C9 (amended): for an identifier the seeding call accepts
    (0 <= id < 2^32) the generator returns the full table, one row for each
    of the 670 days from 2023-01-01 to 2024-10-31 and each of the 5 items,
    3350 rows; and for every identifier, accepted or not, a table that is
    returned fails the [len(sales_data) < 10] test, so [predict] never
    returns from its row-count branch. *)
Theorem row_count_branch_unreachable
  {G : Type} {lib : Library G} (company_id : Z) (budget : option Q) (days_ahead : Z)
  (now : date) (g : G) :
  (0 <= company_id < 2 ^ 32 ->
   exists table,
     fst (_get_sales_data company_id g) = Ok table /\
     List.length table = 3350%nat /\
     map row_key table = list_prod dates items) /\
  (List.length dates = 670%nat /\
   hd_error dates = Some (mkDate 2023 1 1) /\
   last dates (mkDate 0 0 0) = mkDate 2024 10 31 /\
   List.length items = 5%nat) /\
  (forall table,
     fst (_get_sales_data company_id g) = Ok table ->
     (List.length table <? 10)%nat = false) /\
  (exists pth out,
     fst (predict_traced company_id budget days_ahead now g) = Ok (pth, out) /\
     pth <> InsufficientData).
Proof.
  split; [|split; [|split]].
  - intro Hrange.
    destruct (sales_data_outcome company_id g) as [[_ E]|[Hout _]]; [|contradiction].
    exists (fst (gen_table (mt19937_init company_id))).
    split; [exact E|].
    destruct (sales_data_sound company_id g _ E) as (Hlen & Hkeys & _). now split.
  - destruct dates_span as (Hlen & Hhd & Hlast). repeat split; assumption.
  - intros table Ht. destruct (sales_data_sound company_id g table Ht) as (-> & _).
    reflexivity.
  - destruct (predict_traced_cases company_id budget days_ahead now g)
      as [(table & out & _ & _ & ->)|(out & _ & _ & ->)].
    + exists MLPath, out. split; [reflexivity | discriminate].
    + exists ExceptionFallback, out. split; [reflexivity | discriminate].
Qed.

(** ** C7: exceptions inside [predict] *)

(** C7, as stated, when the estimator raises: the handler inside
    [_ml_prediction] turns the failure into an empty list, which [predict]
    returns as it is; the fallback catalogue is not served. *)
Lemma ml_failure_is_not_converted_to_fallback :
  (forall table,
     fit_items (Library := Demo.failing_fit) table 0 (mkDate 2026 11 4)
     = Raise (LibraryError "Expected 2D array, got 1D array instead")) /\
  predict (lib := Demo.failing_fit) 1 None 0 (mkDate 2026 11 4) 7 = Ok [] /\
  _fallback_prediction None 0 = Ok (fallback_catalog None) /\
  fallback_catalog None <> [].
Proof.
  split; [reflexivity|]. split; [vm_compute; reflexivity|].
  split; [reflexivity | discriminate].
Qed.

(** C7 (amended): [predict] never raises.  When the data generator raises, or
    the budget allocator raises on the ML forecasts, the handler of [predict]
    returns the fallback generator's output; when the estimator step raises,
    the handler inside [_ml_prediction] has already replaced the forecasts by
    the empty list and [predict] returns that empty list from its ML path. *)
Theorem predict_never_raises
  {G : Type} {lib : Library G} (company_id : Z) (budget : option Q) (days_ahead : Z)
  (now : date) (g : G) :
  exists pth out,
    fst (predict_traced company_id budget days_ahead now g) = Ok (pth, out) /\
    predict company_id budget days_ahead now g = Ok out /\
    (forall e,
       fst (_get_sales_data company_id g) = Raise e ->
       pth = ExceptionFallback /\ _fallback_prediction budget days_ahead = Ok out) /\
    (forall table e,
       fst (_get_sales_data company_id g) = Ok table ->
       if_budget budget
         (_apply_seasonal_adjustments (_ml_prediction table days_ahead now) (month now))
         = Raise e ->
       pth = ExceptionFallback /\ _fallback_prediction budget days_ahead = Ok out) /\
    (forall table e,
       fst (_get_sales_data company_id g) = Ok table ->
       (fits <- fit_items table days_ahead now ;; for_each build_forecast fits)%result
         = Raise e ->
       pth = MLPath /\ out = []).
Proof.
  destruct (predict_traced_cases company_id budget days_ahead now g)
    as [(table & out & Hgen & Hbud & Htr)|(out & Hwhy & Hfb & Htr)].
  - exists MLPath, out. split; [exact Htr|].
    split; [unfold predict; rewrite Htr; reflexivity|].
    split; [|split].
    + intros e He. rewrite He in Hgen. discriminate.
    + intros table' e Ht Hr. rewrite Ht in Hgen. injection Hgen as ->.
      rewrite Hr in Hbud. discriminate.
    + intros table' e Ht Hr. rewrite Ht in Hgen. injection Hgen as ->.
      split; [reflexivity|].
      unfold _ml_prediction in Hbud. rewrite Hr in Hbud.
      cbn [_apply_seasonal_adjustments map] in Hbud. rewrite if_budget_nil in Hbud.
      congruence.
  - exists ExceptionFallback, out. split; [exact Htr|].
    split; [unfold predict; rewrite Htr; reflexivity|].
    split; [|split].
    + intros e _. now split.
    + intros table e _ _. now split.
    + intros table e Ht Hr. exfalso.
      destruct Hwhy as [(e' & He')|(table' & e' & Ht' & Hr')]; [congruence|].
      rewrite Ht in Ht'. injection Ht' as <-.
      unfold _ml_prediction in Hr'. rewrite Hr in Hr'.
      cbn [_apply_seasonal_adjustments map] in Hr'. rewrite if_budget_nil in Hr'.
      discriminate.
Qed.

(** ** What the budget step does to a list *)

Lemma if_budget_shape (budget : option Q) (base out : list ItemForecast) :
  if_budget budget base = Ok out ->
  exists full part,
    out = full ++ part /\
    (forall p, In p full -> exists p0, In p0 base /\ (p = p0 \/ p = priced p0)) /\
    (part = [] \/
     exists p0 r, In p0 base /\ (1000 <= r)%Q /\ part = [partial_item (priced p0) r]) /\
    (Py.truthy budget = false -> part = []).
Proof.
  unfold if_budget. intro Hout.
  assert (Hplain : Ok base = Ok out ->
            exists full part,
              out = full ++ part /\
              (forall p, In p full -> exists p0, In p0 base /\ (p = p0 \/ p = priced p0)) /\
              (part = [] \/
               exists p0 r, In p0 base /\ (1000 <= r)%Q /\
                            part = [partial_item (priced p0) r]) /\
              (Py.truthy budget = false -> part = [])).
  { intros [= <-]. exists base, []. rewrite app_nil_r. repeat split; auto.
    intros p Hp. exists p. auto. }
  destruct budget as [b|]; [|now apply Hplain].
  destruct (Py.truthy (Some b)) eqn:Eb; [|now apply Hplain].
  apply allocator_shape in Hout as (full & part & -> & Hfull & Hpart).
  exists full, part. repeat split; auto.
  - intros p Hp. destruct (Hfull p Hp) as (p0 & Hp0 & ->). exists p0. auto.
  - discriminate.
Qed.

(** A property that pricing and partial allocation keep holds after the
    budget step if it held before. *)
Lemma if_budget_Forall (P : ItemForecast -> Prop) (budget : option Q)
  (base out : list ItemForecast) :
  (forall p, P p -> P (priced p)) ->
  (forall p r, (1000 <= r)%Q -> P p -> P (partial_item p r)) ->
  Forall P base ->
  if_budget budget base = Ok out ->
  Forall P out.
Proof.
  intros Hpriced Hpartial Hbase Hout. rewrite Forall_forall in Hbase.
  apply if_budget_shape in Hout as (full & part & -> & Hfull & Hpart & _).
  apply Forall_app. split.
  - apply Forall_forall. intros p Hp.
    destruct (Hfull p Hp) as (p0 & Hp0 & [-> | ->]); auto.
  - destruct Hpart as [->|(p0 & r & Hp0 & Hr & ->)]; [constructor|].
    repeat constructor. auto.
Qed.

Lemma fallback_as_budget_step (budget : option Q) (days_ahead : Z) :
  _fallback_prediction budget days_ahead = if_budget budget (fallback_catalog budget).
Proof. reflexivity. Qed.

(** ** The forecasts of the ML path *)

Lemma for_each_sound {A B} (f : A -> result B) (l : list A) (ys : list B) :
  for_each f l = Ok ys -> Forall (fun y => exists x, In x l /\ f x = Ok y) ys.
Proof.
  revert ys. induction l as [|x l IH]; intros ys Hys.
  - injection Hys as <-. constructor.
  - cbn [for_each] in Hys.
    destruct (f x) as [y|e] eqn:Ex; [|discriminate]. cbn [bind] in Hys.
    destruct (for_each f l) as [zs|e] eqn:El; [|discriminate]. cbn [bind] in Hys.
    injection Hys as <-. constructor.
    + exists x. split; [now left | exact Ex].
    + eapply Forall_impl; [|exact (IH zs eq_refl)].
      cbn. intros z (x0 & Hx0 & Hz). exists x0. split; [now right | exact Hz].
Qed.

Lemma ml_prediction_sound {G : Type} {lib : Library G}
  (table : list SalesRecord) (days_ahead : Z) (now : date) :
  Forall
    (fun p => exists fits f,
       fit_items table days_ahead now = Ok fits /\ In f fits /\ build_forecast f = Ok p)
    (_ml_prediction table days_ahead now).
Proof.
  unfold _ml_prediction.
  destruct (fit_items table days_ahead now) as [fits|e] eqn:Efit; [|constructor].
  cbn [bind]. destruct (for_each build_forecast fits) as [ps|e] eqn:Eps; [|constructor].
  eapply Forall_impl; [|exact (for_each_sound _ _ _ Eps)].
  cbn. intros p (f & Hf & Hp). now exists fits, f.
Qed.

Section SumFacts.
Local Open Scope Q_scope.

Lemma fold_sum_nonneg (xs : list Q) : Forall (Qle 0) xs -> 0 <= fold_right Qplus 0 xs.
Proof.
  induction 1 as [|x xs Hx Hxs IH]; cbn [fold_right]; [lra|]. lra.
Qed.

Lemma np_sum_eq (xs : list Q) : np_sum xs == fold_right Qplus 0 xs.
Proof. apply Qred_correct. Qed.

Lemma np_sum_nonneg (xs : list Q) : Forall (Qle 0) xs -> 0 <= np_sum xs.
Proof. intro H. rewrite np_sum_eq. now apply fold_sum_nonneg. Qed.

Lemma Forall_firstn {A} (P : A -> Prop) (n : nat) (l : list A) :
  Forall P l -> Forall P (firstn n l).
Proof.
  intro H. revert n. induction H as [|x l Hx Hl IH]; intros [|n]; cbn [firstn];
    constructor; auto.
Qed.

(** A longer prefix of non-negative numbers has a larger sum. *)
Lemma fold_sum_firstn_le (xs : list Q) :
  Forall (Qle 0) xs ->
  forall n m : nat, (n <= m)%nat ->
    fold_right Qplus 0 (firstn n xs) <= fold_right Qplus 0 (firstn m xs).
Proof.
  induction 1 as [|x xs Hx Hxs IH]; intros n m Hnm.
  - rewrite !firstn_nil. lra.
  - destruct n as [|n]; destruct m as [|m]; cbn [firstn fold_right]; try lia.
    + lra.
    + pose proof (fold_sum_nonneg (firstn m xs) (Forall_firstn _ m xs Hxs)). lra.
    + specialize (IH n m ltac:(lia)). lra.
Qed.

Lemma fold_sum_firstn_all (xs : list Q) (n : nat) :
  Forall (Qle 0) xs -> fold_right Qplus 0 (firstn n xs) <= fold_right Qplus 0 xs.
Proof.
  intro H. rewrite <- (firstn_all xs) at 2.
  destruct (Nat.le_gt_cases n (List.length xs)) as [Hle|Hgt].
  - now apply fold_sum_firstn_le.
  - rewrite (firstn_all2 xs) by lia. rewrite firstn_all. lra.
Qed.

Lemma Qdiv_nonneg (a b : Q) : 0 <= a -> 0 <= b -> 0 <= a / b.
Proof.
  intros Ha Hb. unfold Qdiv. apply Qmult_le_0_compat; [exact Ha|].
  now apply Qinv_le_0_compat.
Qed.

Lemma np_mean_nonneg (xs : list Q) : Forall (Qle 0) xs -> 0 <= np_mean xs.
Proof.
  intro H. unfold np_mean. rewrite Qred_correct.
  apply Qdiv_nonneg; [now apply np_sum_nonneg|].
  change 0 with (inject_Z 0). rewrite <- Zle_Qle. lia.
Qed.

Lemma mean_absolute_error_nonneg (y_true y_hat : list Q) (mae : Q) :
  mean_absolute_error y_true y_hat = Ok mae -> 0 <= mae.
Proof.
  unfold mean_absolute_error. destruct (_ || _); [discriminate|].
  intros [= <-]. apply np_mean_nonneg.
  apply Forall_forall. intros x Hx. apply in_map_iff in Hx as (ab & Hab & _).
  rewrite <- Hab. exact (Qabs_nonneg (fst ab - snd ab)).
Qed.

(** The confidence formula stays between its floor and 1. *)
Lemma ml_confidence_range (mae mean_test : Q) :
  0 <= mae -> 0 <= mean_test ->
  (3 # 10) <= ml_confidence mae mean_test /\ ml_confidence mae mean_test <= 1.
Proof.
  intros Hmae Hmean. unfold ml_confidence.
  destruct (Qeq_bool mean_test 0); [split; lra|].
  split; [apply max_lower|].
  apply max_upper; [lra|]. rewrite fsub_eq, Qred_correct.
  pose proof (Qdiv_nonneg mae mean_test Hmae Hmean). lra.
Qed.

(** The fallback ramp stays between its floor and its first value. *)
Lemma fallback_confidence_range (budget : option Q) (i : Z) (item : string) :
  (0 <= i)%Z -> confidence_in (4 # 10) (6 # 10) (fallback_item budget i item).
Proof.
  intro Hi. unfold confidence_in.
  assert (E : confidence (fallback_item budget i item)
              = Py.max (4 # 10) (Py.fsub (6 # 10) (Py.fmul (Py.of_int i) (1 # 10)))).
  { unfold fallback_item. now destruct (Py.truthy budget). }
  rewrite E. split; [apply max_lower|].
  apply max_upper; [lra|]. rewrite fsub_eq, fmul_eq.
  pose proof (of_int_le 0 i Hi) as Hq. change (Py.of_int 0) with 0 in Hq. lra.
Qed.

End SumFacts.

Lemma build_forecast_confidence (f : Fitted) (p : ItemForecast) :
  Forall (Qle 0) (y_test f) -> build_forecast f = Ok p ->
  confidence_in (3 # 10) 1 p.
Proof.
  intros Hy Hp. unfold build_forecast in Hp.
  destruct (mean_absolute_error (y_test f) (y_pred f)) as [mae|e] eqn:Emae; [|discriminate].
  cbn [bind] in Hp. injection Hp as <-. unfold confidence_in. cbn [confidence].
  apply ml_confidence_range.
  - exact (mean_absolute_error_nonneg _ _ _ Emae).
  - now apply np_mean_nonneg.
Qed.

Lemma build_forecast_horizons (f : Fitted) (p : ItemForecast) :
  Forall (Qle 0) (future_predictions f) -> build_forecast f = Ok p ->
  horizons_nonneg p /\ horizon_90_covers_60 p.
Proof.
  intros Hfp Hp. unfold build_forecast in Hp.
  destruct (mean_absolute_error (y_test f) (y_pred f)) as [mae|e]; [|discriminate].
  cbn [bind] in Hp. injection Hp as <-.
  unfold horizons_nonneg, horizon_90_covers_60.
  cbn [predicted_demand_30d predicted_demand_60d predicted_demand_90d].
  assert (H30 : (0 <= np_sum (firstn 30 (future_predictions f)))%Q)
    by (apply np_sum_nonneg; now apply Forall_firstn).
  assert (H60 : (0 <= np_sum (firstn 60 (future_predictions f)))%Q)
    by (apply np_sum_nonneg; now apply Forall_firstn).
  repeat split.
  - now apply int_nonneg.
  - apply int_monotone; [exact H30|]. rewrite !np_sum_eq.
    exact (fold_sum_firstn_le _ Hfp 30%nat 60%nat ltac:(lia)).
  - apply int_nonneg. now apply np_sum_nonneg.
  - apply int_monotone; [exact H60|]. rewrite !np_sum_eq.
    exact (fold_sum_firstn_all _ 60%nat Hfp).
Qed.

(** ** What each step keeps of a forecast *)

Lemma adjust_item_confidence (m : Z) (p : ItemForecast) :
  confidence (adjust_item m p) = confidence p.
Proof.
  unfold adjust_item. destruct (_ || _); [reflexivity|]. now destruct (_ || _).
Qed.

Lemma scaled_demand_nonneg (d : Z) (c : Q) :
  0 <= d -> (0 <= c)%Q -> 0 <= Py.int (Py.fmul (Py.of_int d) c).
Proof.
  intros Hd Hc. apply int_nonneg. rewrite fmul_eq.
  apply Qmult_le_0_compat; [|exact Hc].
  change 0%Q with (Py.of_int 0). now apply of_int_le.
Qed.

Lemma adjust_item_horizons_nonneg (m : Z) (p : ItemForecast) :
  horizons_nonneg p -> horizons_nonneg (adjust_item m p).
Proof.
  intros (H30 & H60 & H90). unfold adjust_item, horizons_nonneg.
  destruct (_ || _); [|destruct (_ || _)];
    cbn [set_predicted_demand_90d predicted_demand_30d predicted_demand_60d
         predicted_demand_90d];
    repeat split; try assumption; apply scaled_demand_nonneg; try assumption; lra.
Qed.

(** Outside June-August the adjusted 90-day demand is not below the old one. *)
Lemma adjust_item_covers (m : Z) (p : ItemForecast) :
  summer m = false -> 0 <= predicted_demand_90d p ->
  horizon_90_covers_60 p -> horizon_90_covers_60 (adjust_item m p).
Proof.
  intros Hm H90 Hcov. unfold adjust_item, horizon_90_covers_60 in *.
  unfold summer in Hm. rewrite Hm.
  destruct ((m =? 11) || (m =? 12)); [|exact Hcov].
  cbn [set_predicted_demand_90d predicted_demand_60d predicted_demand_90d].
  etransitivity; [exact Hcov|].
  rewrite <- (int_of_int (predicted_demand_90d p)) at 1.
  apply int_monotone.
  - change 0%Q with (Py.of_int 0). now apply of_int_le.
  - rewrite fmul_eq.
    assert (Hq : (0 <= Py.of_int (predicted_demand_90d p))%Q)
      by (change 0%Q with (Py.of_int 0); now apply of_int_le).
    lra.
Qed.

Lemma priced_keeps_confidence (lo hi : Q) (p : ItemForecast) :
  confidence_in lo hi p -> confidence_in lo hi (priced p).
Proof. exact (fun H => H). Qed.

Lemma partial_keeps_confidence (lo hi : Q) (p : ItemForecast) (r : Q) :
  (1000 <= r)%Q -> confidence_in lo hi p -> confidence_in lo hi (partial_item p r).
Proof. exact (fun _ H => H). Qed.

Lemma priced_keeps_horizons (p : ItemForecast) :
  horizons_nonneg p -> horizons_nonneg (priced p).
Proof. exact (fun H => H). Qed.

Lemma partial_keeps_horizons (p : ItemForecast) (r : Q) :
  (1000 <= r)%Q -> horizons_nonneg p -> horizons_nonneg (partial_item p r).
Proof.
  intros Hr (H30 & H60 & _). unfold horizons_nonneg.
  cbn [partial_item predicted_demand_30d predicted_demand_60d predicted_demand_90d].
  repeat split; try assumption.
  apply int_nonneg. apply Qdiv_nonneg; lra.
Qed.

Lemma fallback_catalog_confidence (budget : option Q) :
  Forall (confidence_in (4 # 10) (6 # 10)) (fallback_catalog budget).
Proof.
  unfold fallback_catalog. cbn [enumerate_from default_items map fst snd].
  repeat constructor; apply fallback_confidence_range; lia.
Qed.

Lemma fallback_catalog_horizons (budget : option Q) :
  Forall (fun p => horizons_nonneg p /\ horizon_90_covers_60 p) (fallback_catalog budget).
Proof.
  unfold fallback_catalog, fallback_item, horizons_nonneg, horizon_90_covers_60.
  cbn [enumerate_from default_items map fst snd].
  destruct (Py.truthy budget);
    cbn [set_budget_keys predicted_demand_30d predicted_demand_60d predicted_demand_90d];
    repeat (apply Forall_cons; [cbn; lia|]); apply Forall_nil.
Qed.

Section MLFacts.
Context {G : Type} {lib : Library G}.

Lemma ml_base_confidence (table : list SalesRecord) (days_ahead : Z) (now : date) :
  targets_nonneg lib ->
  Forall (fun r => 0 <= quantity_sold r) table ->
  Forall (confidence_in (3 # 10) 1)
    (_apply_seasonal_adjustments (_ml_prediction table days_ahead now) (month now)).
Proof.
  intros Hlib Htable. unfold _apply_seasonal_adjustments. apply Forall_map.
  eapply Forall_impl; [|apply ml_prediction_sound].
  cbn. intros p (fits & f & Hfit & Hf & Hp).
  unfold confidence_in. rewrite adjust_item_confidence.
  apply (build_forecast_confidence f p); [|exact Hp].
  specialize (Hlib table days_ahead now fits Htable Hfit).
  rewrite Forall_forall in Hlib. now apply Hlib.
Qed.

Lemma ml_base_horizons (table : list SalesRecord) (days_ahead : Z) (now : date) :
  predictions_nonneg lib ->
  Forall (fun r => 0 <= quantity_sold r) table ->
  Forall (fun p => horizons_nonneg p /\
                   (summer (month now) = false -> horizon_90_covers_60 p))
    (_apply_seasonal_adjustments (_ml_prediction table days_ahead now) (month now)).
Proof.
  intros Hlib Htable. unfold _apply_seasonal_adjustments. apply Forall_map.
  eapply Forall_impl; [|apply ml_prediction_sound].
  cbn. intros p (fits & f & Hfit & Hf & Hp).
  specialize (Hlib table days_ahead now fits Htable Hfit).
  rewrite Forall_forall in Hlib.
  destruct (build_forecast_horizons f p (Hlib f Hf) Hp) as (Hnn & Hcov).
  split; [now apply adjust_item_horizons_nonneg|].
  intro Hm. apply adjust_item_covers; [exact Hm | apply Hnn | exact Hcov].
Qed.

End MLFacts.

(** The demo estimator meets both assumptions. *)
Lemma steady_targets_nonneg : targets_nonneg Demo.steady.
Proof.
  intros table days_ahead now fits _ [= <-].
  repeat constructor; unfold Qle; cbn; lia.
Qed.

Lemma steady_predictions_nonneg : predictions_nonneg Demo.steady.
Proof.
  intros table days_ahead now fits _ [= <-].
  repeat (constructor; [apply Forall_forall; intros x Hx;
                        apply repeat_spec in Hx; subst x; unfold Qle; cbn; lia|]).
  constructor.
Qed.

(** ** C5: confidence *)

(** C5: every forecast that [predict] returns from its ML path has a
    confidence in [0.3, 1.0], and every forecast it returns from the fallback
    generator has one in [0.4, 0.6]; the ML formula
    max(0.3, 1 - mae / mean) is at most 1 for a non-negative error and mean,
    and the fallback ramp is within [0.4, 0.6] at every index. *)
Theorem confidence_ranges
  {G : Type} (lib : Library G) (company_id : Z) (budget : option Q) (days_ahead : Z)
  (now : date) (g : G) :
  targets_nonneg lib ->
  (exists pth out,
     fst (predict_traced company_id budget days_ahead now g) = Ok (pth, out) /\
     (pth = MLPath -> Forall (confidence_in (3 # 10) 1) out) /\
     (pth <> MLPath -> Forall (confidence_in (4 # 10) (6 # 10)) out)) /\
  (forall mae mean_test,
     (0 <= mae)%Q -> (0 <= mean_test)%Q ->
     (3 # 10 <= ml_confidence mae mean_test)%Q /\ (ml_confidence mae mean_test <= 1)%Q) /\
  (forall i item, 0 <= i -> confidence_in (4 # 10) (6 # 10) (fallback_item budget i item)).
Proof.
  intro Hlib. split; [|split].
  - destruct (predict_traced_cases company_id budget days_ahead now g)
      as [(table & out & Hgen & Hbud & Htr)|(out & _ & Hfb & Htr)].
    + exists MLPath, out. split; [exact Htr|]. split; [intros _|congruence].
      destruct (sales_data_sound company_id g table Hgen) as (_ & _ & Htable).
      eapply if_budget_Forall; [| | |exact Hbud].
      * apply priced_keeps_confidence.
      * apply partial_keeps_confidence.
      * now apply ml_base_confidence.
    + exists ExceptionFallback, out. split; [exact Htr|]. split; [discriminate|intros _].
      rewrite fallback_as_budget_step in Hfb.
      eapply if_budget_Forall; [| | |exact Hfb].
      * apply priced_keeps_confidence.
      * apply partial_keeps_confidence.
      * apply fallback_catalog_confidence.
  - apply ml_confidence_range.
  - intros i item Hi. now apply fallback_confidence_range.
Qed.

Lemma confidence_ranges_witness :
  (exists pth out,
     fst (predict_traced (lib := Demo.steady) 1 (Some 300000%Q) 90 (mkDate 2026 11 4) 7)
       = Ok (pth, out) /\
     (pth = MLPath -> Forall (confidence_in (3 # 10) 1) out) /\
     (pth <> MLPath -> Forall (confidence_in (4 # 10) (6 # 10)) out)) /\
  (forall mae mean_test,
     (0 <= mae)%Q -> (0 <= mean_test)%Q ->
     (3 # 10 <= ml_confidence mae mean_test)%Q /\ (ml_confidence mae mean_test <= 1)%Q) /\
  (forall i item,
     0 <= i -> confidence_in (4 # 10) (6 # 10) (fallback_item (Some 300000%Q) i item)).
Proof.
  apply (confidence_ranges Demo.steady 1 (Some 300000%Q) 90 (mkDate 2026 11 4) 7).
  exact steady_targets_nonneg.
Defined.

(** ** C2: the three horizons *)

(** C2, as stated, on two runs.  With a budget of 1000 the fallback generator
    returns one partial item whose 90-day demand (10) is below its 30-day
    demand (50); and on the ML path in July with a 60-day horizon the
    seasonal factor 0.9 brings the 90-day demand (540) below the 60-day one
    (600). *)
Lemma horizon_order_broken :
  (exists p,
     _fallback_prediction (Some 1000%Q) 90 = Ok [p] /\
     predicted_demand_30d p = 50 /\ predicted_demand_60d p = 100 /\
     predicted_demand_90d p = 10 /\
     ~ (predicted_demand_30d p <= predicted_demand_60d p <= predicted_demand_90d p)) /\
  (exists p rest,
     predict (lib := Demo.steady) 1 None 60 (mkDate 2026 7 4) 7 = Ok (p :: rest) /\
     predicted_demand_60d p = 600 /\ predicted_demand_90d p = 540 /\
     ~ (predicted_demand_30d p <= predicted_demand_60d p <= predicted_demand_90d p)).
Proof.
  split.
  - eexists. split; [vm_compute; reflexivity|]. cbn. repeat split. lia.
  - eexists _, _. split; [vm_compute; reflexivity|]. cbn. repeat split. lia.
Qed.

(* ================================================================== *)
(** * Further properties of the code *)

(** ** The seasonal adjuster *)

Lemma int_scaled (d a : Z) (b : positive) :
  0 <= d -> 0 <= a -> Py.int (Py.fmul (Py.of_int d) (a # b)) = (d * a) / Zpos b.
Proof.
  intros Hd Ha. unfold Py.int.
  assert (Hq : (Py.fmul (Py.of_int d) (a # b) == (d * a) # b)%Q).
  { rewrite fmul_eq. unfold Py.of_int, Qeq. cbn. lia. }
  assert (Hnn : (0 <= Py.fmul (Py.of_int d) (a # b))%Q).
  { rewrite Hq. unfold Qle. cbn. nia. }
  apply Qle_bool_iff in Hnn. rewrite Hnn. rewrite Hq. reflexivity.
Qed.

(** X1: the seasonal adjuster keeps the list's length and order and every
    field but [predicted_demand_90d]; for a non-negative demand [d] it
    stores [13 d / 10] (rounded down, so never less than [d]) in November
    and December, [9 d / 10] (never more than [d]) in June, July and
    August, and leaves the item as it is in the other months. *)
Theorem seasonal_adjuster_effect (predictions : list ItemForecast) (current_month : Z) :
  Forall (fun p => 0 <= predicted_demand_90d p) predictions ->
  Forall2
    (fun p q =>
       same_but_90d p q /\
       if (current_month =? 11) || (current_month =? 12) then
         predicted_demand_90d q = predicted_demand_90d p * 13 / 10 /\
         predicted_demand_90d p <= predicted_demand_90d q
       else if summer current_month then
         predicted_demand_90d q = predicted_demand_90d p * 9 / 10 /\
         0 <= predicted_demand_90d q <= predicted_demand_90d p
       else q = p)
    predictions (_apply_seasonal_adjustments predictions current_month).
Proof.
  unfold _apply_seasonal_adjustments.
  induction 1 as [|p l Hp Hl IH]; cbn [map]; constructor; [|exact IH].
  unfold adjust_item, summer.
  destruct ((current_month =? 11) || (current_month =? 12)).
  - split; [repeat split|].
    cbn [set_predicted_demand_90d predicted_demand_90d].
    rewrite (int_scaled _ 13 10 Hp) by lia. split; [reflexivity|].
    apply Z.div_le_lower_bound; lia.
  - destruct ((current_month =? 6) || (current_month =? 7) || (current_month =? 8)).
    + split; [repeat split|].
      cbn [set_predicted_demand_90d predicted_demand_90d].
      rewrite (int_scaled _ 9 10 Hp) by lia. split; [reflexivity|]. split.
      * apply Z.div_pos; lia.
      * apply Z.div_le_upper_bound; lia.
    + split; [repeat split | reflexivity].
Qed.

Lemma seasonal_adjuster_effect_witness :
  Forall2
    (fun p q =>
       same_but_90d p q /\
       if (7 =? 11) || (7 =? 12) then
         predicted_demand_90d q = predicted_demand_90d p * 13 / 10 /\
         predicted_demand_90d p <= predicted_demand_90d q
       else if summer 7 then
         predicted_demand_90d q = predicted_demand_90d p * 9 / 10 /\
         0 <= predicted_demand_90d q <= predicted_demand_90d p
       else q = p)
    (fallback_catalog None) (_apply_seasonal_adjustments (fallback_catalog None) 7).
Proof.
  apply (seasonal_adjuster_effect (fallback_catalog None) 7).
  eapply Forall_impl; [|apply (fallback_catalog_demand None)]. cbn. intros p Hp. lia.
Defined.

(** ** The allocator on budgets that cover everything, and on partial items *)

Lemma allocate_everything (l : list ItemForecast) :
  forall budget total : Q,
    Forall (fun p => (0 < inv_of p)%Q) l ->
    (total + total_investment_of l <= budget)%Q ->
    allocate budget total l = l.
Proof.
  induction l as [|p l IH]; intros budget total Hpos Hfit; [reflexivity|].
  inversion Hpos as [|? ? Hp Hl]; subst.
  rewrite total_investment_cons in Hfit. cbn [allocate]. fold (inv_of p).
  assert (Hrest : (0 <= total_investment_of l)%Q).
  { clear -Hl. induction Hl as [|q l Hq Hl IH].
    - cbn. lra.
    - rewrite total_investment_cons. lra. }
  assert (E : Py.le (Py.fadd total (inv_of p)) budget = true).
  { apply le_iff. rewrite fadd_eq. lra. }
  rewrite E. f_equal. apply IH; [exact Hl|]. rewrite fadd_eq. lra.
Qed.

(** X2: when the budget is at least the sum of all full investments
    (100 per unit of 90-day demand), the allocator returns every item, in
    input order, each with its three budget keys and none partial; the
    remaining budget is not handed out. *)
Theorem ample_budget_accepts_everything (predictions : list ItemForecast) (budget : Q) :
  Forall (fun p => 0 < predicted_demand_90d p) predictions ->
  (total_investment_of (map priced predictions) <= budget)%Q ->
  _apply_budget_constraints predictions budget = Ok (map priced predictions) /\
  map item_name (map priced predictions) = map item_name predictions /\
  Forall priced_at_30 (map priced predictions).
Proof.
  intros Hpos Hfit.
  assert (Hnz : Forall (fun p => predicted_demand_90d p <> 0) predictions).
  { eapply Forall_impl; [|exact Hpos]. cbn. intros p Hp. lia. }
  split; [|split].
  - unfold _apply_budget_constraints. rewrite (priced_sorted_nonzero _ Hnz). cbn [bind].
    f_equal. apply allocate_everything; [now apply priced_positive | lra].
  - rewrite map_map. reflexivity.
  - apply Forall_forall. intros q Hq. apply in_map_iff in Hq as (p & <- & Hp).
    rewrite Forall_forall in Hpos. specialize (Hpos p Hp).
    exists (Py.of_int (predicted_demand_90d p * 100)),
           (Py.fmul (Py.of_int (predicted_demand_90d p * 100)) (3 # 10)).
    repeat split.
    + change 0%Q with (Py.of_int 0). apply of_int_lt. lia.
    + rewrite fmul_eq. ring.
Qed.

Lemma ample_budget_accepts_everything_witness :
  _apply_budget_constraints (fallback_catalog None) 150000
    = Ok (map priced (fallback_catalog None)) /\
  map item_name (map priced (fallback_catalog None)) = map item_name (fallback_catalog None) /\
  Forall priced_at_30 (map priced (fallback_catalog None)).
Proof.
  apply (ample_budget_accepts_everything (fallback_catalog None) 150000).
  - apply fallback_catalog_demand.
  - vm_compute. discriminate.
Defined.

Section PartialFacts.
Local Open Scope Q_scope.

(** As [allocate_prefix], recording that a partial item costs less than the
    item it copies. *)
Lemma allocate_partial_bound (l : list ItemForecast) :
  forall budget total : Q,
    total <= budget -> Forall (fun p => 0 < inv_of p) l ->
    exists k : nat,
      allocate budget total l = firstn k l \/
      exists pred r,
        nth_error l k = Some pred /\ 1000 <= r /\ r < inv_of pred /\
        allocate budget total l = firstn k l ++ [partial_item pred r].
Proof.
  induction l as [|p l IH]; intros budget total Hle Hpos.
  - exists 0%nat. now left.
  - inversion Hpos as [|? ? Hp Hl]; subst. cbn [allocate]. fold (inv_of p).
    destruct (Py.le (Py.fadd total (inv_of p)) budget) eqn:E1.
    + apply le_iff in E1.
      destruct (IH budget (Py.fadd total (inv_of p)) E1 Hl) as (k & Hout).
      exists (S k). cbn [firstn nth_error].
      destruct Hout as [Hout | (pred & r & Hnth & Hmin & Hlt & Hout)].
      * left. now rewrite Hout.
      * right. exists pred, r. repeat split; try assumption. now rewrite Hout.
    + exists 0%nat. cbn [firstn nth_error app].
      apply le_false_iff in E1. rewrite fadd_eq in E1.
      destruct (Py.lt total budget) eqn:E2.
      * destruct (Py.le 1000 (Py.fsub budget total)) eqn:E3; [|now left].
        right. exists p, (Py.fsub budget total). repeat split.
        -- now apply le_iff in E3.
        -- rewrite fsub_eq. lra.
      * left. apply allocate_exhausted; [now apply lt_false_iff | exact Hl].
Qed.

Lemma partial_demand_bounds (r : Q) (d : Z) :
  1000 <= r -> r < Py.of_int (d * 100) ->
  (10 <= Py.int (r / 100) < d)%Z.
Proof.
  intros Hmin Hlt.
  assert (Hnn : 0 <= r / 100) by (apply Qdiv_nonneg; lra).
  assert (Hint : Py.int (r / 100) = Qfloor (r / 100)).
  { unfold Py.int. apply Qle_bool_iff in Hnn. now rewrite Hnn. }
  rewrite Hint. split.
  - change 10%Z with (Qfloor 10). apply Qfloor_resp_le.
    apply Qle_shift_div_l; lra.
  - rewrite Zlt_Qlt. eapply Qle_lt_trans; [apply Qfloor_le|].
    apply Qlt_shift_div_r; [lra|].
    unfold Py.of_int in Hlt. rewrite inject_Z_mult in Hlt. exact Hlt.
Qed.

End PartialFacts.

(** X3: a partial allocation scales the item down, never up.  For a budget
    that is not negative and positive demands, a partial item at the end of
    the allocator's output has an investment of at least 1000 and strictly
    below the full investment of the item it copies; its 90-day demand is
    the investment over 100, rounded down, at least 10 and strictly below
    the original demand, while the name, the 30- and 60-day demands, the
    confidence and the ROI of 30 are those of the original. *)
Theorem partial_item_scaled_down (predictions : list ItemForecast) (budget : Q) :
  (0 <= budget)%Q ->
  Forall (fun p => 0 < predicted_demand_90d p) predictions ->
  exists (out : list ItemForecast) (k : nat),
    _apply_budget_constraints predictions budget = Ok out /\
    (out = map priced (firstn k predictions) \/
     exists pred r last,
       nth_error predictions k = Some pred /\
       out = map priced (firstn k predictions) ++ [last] /\
       investment_required last = Some r /\
       (1000 <= r)%Q /\ (r < inject_Z (predicted_demand_90d pred * 100))%Q /\
       predicted_demand_90d last = Qfloor (r / 100) /\
       10 <= predicted_demand_90d last < predicted_demand_90d pred /\
       item_name last = item_name pred /\
       predicted_demand_30d last = predicted_demand_30d pred /\
       predicted_demand_60d last = predicted_demand_60d pred /\
       confidence last = confidence pred /\
       roi_percentage last = Some 30%Q).
Proof.
  intros Hbudget Hpos.
  assert (Hnz : Forall (fun p => predicted_demand_90d p <> 0) predictions).
  { eapply Forall_impl; [|exact Hpos]. cbn. intros p Hp. lia. }
  unfold _apply_budget_constraints. rewrite (priced_sorted_nonzero _ Hnz). cbn [bind].
  destruct (allocate_partial_bound (map priced predictions) budget 0 Hbudget
              (priced_positive _ Hpos)) as (k & Hout).
  rewrite firstn_map in Hout.
  exists (allocate budget 0 (map priced predictions)), k. split; [reflexivity|].
  destruct Hout as [Hout | (pred & r & Hnth & Hmin & Hlt & Hout)]; [now left|].
  right. rewrite nth_error_map in Hnth.
  destruct (nth_error predictions k) as [p0|] eqn:E; [|discriminate].
  injection Hnth as <-. rewrite inv_of_priced in Hlt.
  pose proof (partial_demand_bounds r (predicted_demand_90d p0) Hmin Hlt) as Hd.
  exists p0, r, (partial_item (priced p0) r).
  repeat split; try assumption; try apply Hd.
  cbn [partial_item predicted_demand_90d]. unfold Py.int.
  assert (Hnn : (0 <= r / 100)%Q) by (apply Qdiv_nonneg; lra).
  apply Qle_bool_iff in Hnn. now rewrite Hnn.
Qed.

Lemma partial_item_scaled_down_witness :
  exists (out : list ItemForecast) (k : nat),
    _apply_budget_constraints (fallback_catalog None) 20000 = Ok out /\
    (out = map priced (firstn k (fallback_catalog None)) \/
     exists pred r last,
       nth_error (fallback_catalog None) k = Some pred /\
       out = map priced (firstn k (fallback_catalog None)) ++ [last] /\
       investment_required last = Some r /\
       (1000 <= r)%Q /\ (r < inject_Z (predicted_demand_90d pred * 100))%Q /\
       predicted_demand_90d last = Qfloor (r / 100) /\
       10 <= predicted_demand_90d last < predicted_demand_90d pred /\
       item_name last = item_name pred /\
       predicted_demand_30d last = predicted_demand_30d pred /\
       predicted_demand_60d last = predicted_demand_60d pred /\
       confidence last = confidence pred /\
       roi_percentage last = Some 30%Q).
Proof.
  apply (partial_item_scaled_down (fallback_catalog None) 20000).
  - vm_compute. discriminate.
  - apply fallback_catalog_demand.
Defined.

(** ** [predict] and the budget *)

Lemma if_budget_falsy (budget : option Q) (l : list ItemForecast) :
  Py.truthy budget = false -> if_budget budget l = Ok l.
Proof.
  intro Hf. unfold if_budget. destruct budget as [b|]; [|reflexivity]. now rewrite Hf.
Qed.

Lemma if_budget_truthy (budget : option Q) (l : list ItemForecast) :
  Py.truthy budget = true ->
  exists b, budget = Some b /\ ~ (b == 0)%Q /\ if_budget budget l = _apply_budget_constraints l b.
Proof.
  intro Ht. unfold if_budget. destruct budget as [b|]; [|discriminate].
  exists b. rewrite Ht. repeat split.
  cbn in Ht. apply negb_true_iff in Ht. now apply Qeq_bool_neq.
Qed.

Lemma fallback_catalog_falsy (budget : option Q) :
  Py.truthy budget = false -> fallback_catalog budget = fallback_catalog None.
Proof.
  intro Hf. unfold fallback_catalog. apply map_ext. intros [i item].
  unfold fallback_item. rewrite Hf. reflexivity.
Qed.

Lemma fallback_falsy (budget : option Q) (days_ahead : Z) :
  Py.truthy budget = false ->
  _fallback_prediction budget days_ahead = Ok (fallback_catalog None).
Proof.
  intro Hf. rewrite fallback_as_budget_step, (if_budget_falsy _ _ Hf).
  now rewrite (fallback_catalog_falsy _ Hf).
Qed.

Lemma truthy_zero (b : Q) : (b == 0)%Q -> Py.truthy (Some b) = false.
Proof.
  intro Hb. cbn. apply negb_false_iff. now apply Qeq_bool_iff.
Qed.

Lemma recommendations_falsy (predictions : list ItemForecast) (budget : option Q) (m : Z) :
  Py.truthy budget = false ->
  generate_recommendations predictions budget m = generate_recommendations predictions None m.
Proof.
  intro Hf. unfold generate_recommendations.
  destruct predictions as [|p rest]; [reflexivity|].
  destruct budget as [b|]; [|reflexivity]. now rewrite Hf.
Qed.

Lemma predict_traced_falsy {G : Type} {lib : Library G}
  (company_id : Z) (budget : option Q) (days_ahead : Z) (now : date) (g : G) :
  Py.truthy budget = false ->
  predict_traced company_id budget days_ahead now g
  = predict_traced company_id None days_ahead now g.
Proof.
  intro Hf. unfold predict_traced, predict_body.
  destruct (_get_sales_data company_id g) as [generated g1].
  rewrite (fallback_falsy budget days_ahead Hf), (fallback_falsy None days_ahead eq_refl).
  destruct generated as [table|e]; [|reflexivity]. cbn [bind].
  destruct (List.length table <? 10)%nat; [reflexivity|].
  now rewrite (if_budget_falsy budget _ Hf), (if_budget_falsy None _ eq_refl).
Qed.

(** X4: a budget of zero is no budget.  For every request, a budget equal to
    0 gives the same traced prediction, the same recommendations and the
    same response of the [/predict/demand] body as an absent budget: no item
    gets a budget key and the composer emits the stock recommendation. *)
Theorem zero_budget_is_no_budget
  {G : Type} {lib : Library G} {host : Host}
  (b : Q) (company_id days_ahead : Z) (now now_rec utcnow : date) (g : G) :
  (b == 0)%Q ->
  predict_traced company_id (Some b) days_ahead now g
    = predict_traced company_id None days_ahead now g /\
  (forall predictions m,
     generate_recommendations predictions (Some b) m
     = generate_recommendations predictions None m) /\
  predict_demand_body (mkRequest company_id (Some b) days_ahead) now now_rec utcnow g
    = predict_demand_body (mkRequest company_id None days_ahead) now now_rec utcnow g.
Proof.
  intro Hb. pose proof (truthy_zero b Hb) as Hf.
  split; [now apply predict_traced_falsy|]. split.
  - intros predictions m. now apply recommendations_falsy.
  - unfold predict_demand_body.
    cbn [req_company_id req_budget req_days_ahead].
    rewrite (predict_traced_falsy company_id (Some b) days_ahead now g Hf).
    destruct (predict_traced company_id None days_ahead now g) as [[[pth out]|e] g1];
      [|reflexivity].
    now rewrite (recommendations_falsy out (Some b) (month now_rec) Hf).
Qed.

Lemma zero_budget_is_no_budget_witness :
  predict_traced (lib := Demo.steady) 1 (Some (0 # 5)) 90 (mkDate 2026 11 4) 7
    = predict_traced (lib := Demo.steady) 1 None 90 (mkDate 2026 11 4) 7 /\
  (forall predictions m,
     generate_recommendations predictions (Some (0 # 5)) m
     = generate_recommendations predictions None m) /\
  predict_demand_body (lib := Demo.steady) (host := obliging_host)
    (mkRequest 1 (Some (0 # 5)) 90) (mkDate 2026 11 4) (mkDate 2026 11 4) (mkDate 2026 11 4) 7
    = predict_demand_body (lib := Demo.steady) (host := obliging_host)
        (mkRequest 1 None 90) (mkDate 2026 11 4) (mkDate 2026 11 4) (mkDate 2026 11 4) 7.
Proof.
  apply (zero_budget_is_no_budget (lib := Demo.steady) (host := obliging_host)
           (0 # 5) 1 90 (mkDate 2026 11 4) (mkDate 2026 11 4) (mkDate 2026 11 4) 7).
  reflexivity.
Defined.

Lemma allocator_spent_budget (l : list ItemForecast) (b : Q) :
  (b <= 0)%Q -> Forall (fun p => 0 < predicted_demand_90d p) l ->
  _apply_budget_constraints l b = Ok [].
Proof.
  intros Hb Hpos.
  assert (Hnz : Forall (fun p => predicted_demand_90d p <> 0) l).
  { eapply Forall_impl; [|exact Hpos]. cbn. intros p Hp. lia. }
  unfold _apply_budget_constraints. rewrite (priced_sorted_nonzero _ Hnz). cbn [bind].
  f_equal. apply allocate_exhausted; [exact Hb | now apply priced_positive].
Qed.

(** When the allocator returns, no demand it was given is zero. *)
Lemma allocator_ok_nonzero (l out : list ItemForecast) (b : Q) :
  _apply_budget_constraints l b = Ok out ->
  Forall (fun p => predicted_demand_90d p <> 0) l /\ out = allocate b 0 (map priced l).
Proof.
  unfold _apply_budget_constraints. intro Hout.
  destruct (priced_sorted l) as [sorted|e] eqn:E; [|discriminate].
  apply priced_sorted_inv in E as [Hnz ->]. cbn [bind] in Hout.
  split; [exact Hnz | congruence].
Qed.

Lemma positive_of_nonzero (l : list ItemForecast) :
  Forall horizons_nonneg l ->
  Forall (fun p => predicted_demand_90d p <> 0) l ->
  Forall (fun p => 0 < predicted_demand_90d p) l.
Proof.
  intros Hnn Hnz. rewrite Forall_forall in *. intros p Hp.
  destruct (Hnn p Hp) as (_ & _ & H90). specialize (Hnz p Hp). lia.
Qed.

Section BudgetEdges.
Context {G : Type} {lib : Library G}.

Lemma ml_base_nonneg (table : list SalesRecord) (days_ahead : Z) (now : date) :
  predictions_nonneg lib ->
  Forall (fun r => 0 <= quantity_sold r) table ->
  Forall horizons_nonneg
    (_apply_seasonal_adjustments (_ml_prediction table days_ahead now) (month now)).
Proof.
  intros Hlib Htable.
  eapply Forall_impl; [|exact (ml_base_horizons table days_ahead now Hlib Htable)].
  cbn. now intros p [Hp _].
Qed.

Lemma fallback_catalog_nonneg (budget : option Q) :
  Forall horizons_nonneg (fallback_catalog budget).
Proof.
  eapply Forall_impl; [|apply fallback_catalog_horizons]. cbn. now intros p [Hp _].
Qed.

(** The two lists the budget step of [predict] can be applied to. *)
Lemma predict_traced_sources (company_id : Z) (budget : option Q) (days_ahead : Z)
  (now : date) (g : G) :
  predictions_nonneg lib ->
  exists pth base out,
    fst (predict_traced company_id budget days_ahead now g) = Ok (pth, out) /\
    if_budget budget base = Ok out /\
    Forall horizons_nonneg base /\
    ((pth = MLPath /\
      exists table,
        fst (_get_sales_data company_id g) = Ok table /\
        base = _apply_seasonal_adjustments (_ml_prediction table days_ahead now) (month now)) \/
     (pth = ExceptionFallback /\ base = fallback_catalog budget /\
      _fallback_prediction budget days_ahead = Ok out)).
Proof.
  intro Hlib.
  destruct (predict_traced_cases company_id budget days_ahead now g)
    as [(table & out & Hgen & Hbud & Htr)|(out & _ & Hfb & Htr)].
  - destruct (sales_data_sound company_id g table Hgen) as (_ & _ & Htable).
    exists MLPath,
      (_apply_seasonal_adjustments (_ml_prediction table days_ahead now) (month now)), out.
    split; [exact Htr|]. split; [exact Hbud|].
    split; [now apply ml_base_nonneg|]. left. split; [reflexivity|]. now exists table.
  - exists ExceptionFallback, (fallback_catalog budget), out.
    split; [exact Htr|]. split; [now rewrite <- (fallback_as_budget_step budget days_ahead)|].
    split; [apply fallback_catalog_nonneg|]. right. repeat split. exact Hfb.
Qed.

End BudgetEdges.

(** X5: a negative budget allocates nothing and is not an error.  For every
    identifier and horizon, [predict] with a budget below zero returns the
    empty list (from the ML path, or from the fallback generator when the
    generator or a zero demand raised), and the [/predict/demand] body
    answers with no prediction and no recommendation. *)
Theorem negative_budget_allocates_nothing
  {G : Type} (lib : Library G) (host : Host)
  (b : Q) (company_id days_ahead : Z) (now now_rec utcnow : date) (g : G) :
  predictions_nonneg lib ->
  (b < 0)%Q ->
  predict company_id (Some b) days_ahead now g = Ok [] /\
  exists g1,
    predict_demand_body (mkRequest company_id (Some b) days_ahead) now now_rec utcnow g
    = (Respond (mkResponse [] [] (isoformat utcnow)), g1).
Proof.
  intros Hlib Hb.
  destruct (predict_traced_sources company_id (Some b) days_ahead now g Hlib)
    as (pth & base & out & Htr & Hbud & Hnn & _).
  assert (Ht : Py.truthy (Some b) = true).
  { cbn. apply negb_true_iff. destruct (Qeq_bool b 0) eqn:E; [|reflexivity].
    apply Qeq_bool_iff in E. lra. }
  destruct (if_budget_truthy (Some b) base Ht) as (b' & [= <-] & _ & Hif).
  rewrite Hif in Hbud.
  destruct (allocator_ok_nonzero _ _ _ Hbud) as (Hnz & _).
  rewrite (allocator_spent_budget base b) in Hbud
    by (try lra; now apply positive_of_nonzero).
  injection Hbud as <-.
  split.
  - unfold predict. rewrite Htr. reflexivity.
  - unfold predict_demand_body. cbn [req_company_id req_budget req_days_ahead].
    destruct (predict_traced company_id (Some b) days_ahead now g) as [traced g1].
    cbn [fst] in Htr. subst traced. exists g1. reflexivity.
Qed.

Lemma negative_budget_allocates_nothing_witness :
  predict (lib := Demo.steady) 1 (Some (-500)%Q) 90 (mkDate 2026 11 4) 7 = Ok [] /\
  exists g1,
    predict_demand_body (lib := Demo.steady) (host := obliging_host)
      (mkRequest 1 (Some (-500)%Q) 90) (mkDate 2026 11 4) (mkDate 2026 11 4)
      (mkDate 2026 11 4) 7
    = (Respond (mkResponse [] [] (isoformat (Host := obliging_host) (mkDate 2026 11 4))), g1).
Proof.
  apply (negative_budget_allocates_nothing Demo.steady obliging_host (-500) 1 90
           (mkDate 2026 11 4) (mkDate 2026 11 4) (mkDate 2026 11 4) 7).
  - exact steady_predictions_nonneg.
  - reflexivity.
Defined.

Lemma allocator_raises_on_zero (l : list ItemForecast) (b : Q) :
  Exists (fun p => predicted_demand_90d p = 0) l ->
  _apply_budget_constraints l b = Raise ZeroDivisionError.
Proof.
  intro Hex.
  destruct (_apply_budget_constraints l b) as [out|e] eqn:E.
  - destruct (allocator_ok_nonzero _ _ _ E) as (Hnz & _).
    apply Exists_exists in Hex as (p & Hp & Hz).
    rewrite Forall_forall in Hnz. now destruct (Hnz p Hp).
  - now destruct (allocator_raises _ _ _ E) as [-> _].
Qed.

(** X6: one forecast without demand voids the whole ML result when a budget
    is given.  If, after the seasonal adjustment, some ML forecast has a
    90-day demand of 0, the allocator's ROI quotient raises, the handler of
    [predict] takes over and the caller receives the fallback generator's
    output in place of every ML forecast. *)
Theorem zero_demand_voids_ml_result
  {G : Type} {lib : Library G}
  (company_id : Z) (budget : option Q) (days_ahead : Z) (now : date) (g : G)
  (table : list SalesRecord) :
  fst (_get_sales_data company_id g) = Ok table ->
  Py.truthy budget = true ->
  Exists (fun p => predicted_demand_90d p = 0)
    (_apply_seasonal_adjustments (_ml_prediction table days_ahead now) (month now)) ->
  exists out,
    fst (predict_traced company_id budget days_ahead now g) = Ok (ExceptionFallback, out) /\
    _fallback_prediction budget days_ahead = Ok out /\
    Forall (fun p => exists c, In c (fallback_catalog None) /\ item_name p = item_name c) out.
Proof.
  intros Hgen Ht Hzero.
  destruct (if_budget_truthy budget
              (_apply_seasonal_adjustments (_ml_prediction table days_ahead now) (month now)) Ht)
    as (b & -> & _ & Hif).
  rewrite (allocator_raises_on_zero _ b Hzero) in Hif.
  destruct (predict_traced_cases company_id (Some b) days_ahead now g)
    as [(table' & out & Hgen' & Hbud & _)|(out & _ & Hfb & Htr)].
  - rewrite Hgen in Hgen'. injection Hgen' as <-. congruence.
  - exists out. split; [exact Htr|]. split; [exact Hfb|].
    rewrite fallback_as_budget_step in Hfb.
    apply if_budget_shape in Hfb as (full & part & -> & Hfull & Hpart & _).
    assert (Hcat : forall p0, In p0 (fallback_catalog (Some b)) ->
                     exists c, In c (fallback_catalog None) /\ item_name p0 = item_name c).
    { intros p0 Hp0. unfold fallback_catalog in *.
      apply in_map_iff in Hp0 as ([i item] & <- & Hin).
      exists (fallback_item None i item). split; [apply in_map_iff; now exists (i, item)|].
      unfold fallback_item. now destruct (Py.truthy (Some b)). }
    apply Forall_app. split.
    + apply Forall_forall. intros p Hp.
      destruct (Hfull p Hp) as (p0 & Hp0 & [-> | ->]);
        destruct (Hcat p0 Hp0) as (c & Hc & Hn); exists c; (split; [exact Hc | exact Hn]).
    + destruct Hpart as [->|(p0 & r & Hp0 & _ & ->)]; [constructor|].
      constructor; [|constructor].
      destruct (Hcat p0 Hp0) as (c & Hc & Hn). exists c. split; [exact Hc | exact Hn].
Qed.

Lemma priced_is_priced_at_30 (p : ItemForecast) :
  0 < predicted_demand_90d p -> priced_at_30 (priced p).
Proof.
  intro Hp.
  exists (Py.of_int (predicted_demand_90d p * 100)),
         (Py.fmul (Py.of_int (predicted_demand_90d p * 100)) (3 # 10)).
  repeat split.
  - change 0%Q with (Py.of_int 0). apply of_int_lt. lia.
  - rewrite fmul_eq. ring.
Qed.

Lemma partial_is_priced_at_30 (p : ItemForecast) (r : Q) :
  (1000 <= r)%Q -> priced_at_30 (partial_item (priced p) r).
Proof.
  intro Hr. exists r, (Py.fmul r (3 # 10)). repeat split.
  - lra.
  - rewrite fmul_eq. ring.
Qed.

Lemma allocator_output_priced (base out : list ItemForecast) (b : Q) :
  Forall horizons_nonneg base ->
  _apply_budget_constraints base b = Ok out ->
  Forall priced_at_30 out.
Proof.
  intros Hnn Hout.
  destruct (allocator_ok_nonzero _ _ _ Hout) as (Hnz & _).
  pose proof (positive_of_nonzero base Hnn Hnz) as Hpos. rewrite Forall_forall in Hpos.
  apply allocator_shape in Hout as (full & part & -> & Hfull & Hpart).
  apply Forall_app. split.
  - apply Forall_forall. intros p Hp. destruct (Hfull p Hp) as (p0 & Hp0 & ->).
    apply priced_is_priced_at_30. now apply Hpos.
  - destruct Hpart as [->|(p0 & r & Hp0 & Hr & ->)]; [constructor|].
    constructor; [|constructor]. now apply partial_is_priced_at_30.
Qed.

Lemma build_forecast_unpriced (f : Fitted) (p : ItemForecast) :
  build_forecast f = Ok p -> unpriced p.
Proof.
  unfold build_forecast.
  destruct (mean_absolute_error (y_test f) (y_pred f)) as [mae|e]; [|discriminate].
  cbn [bind]. intros [= <-]. repeat split.
Qed.

Lemma adjust_item_unpriced (m : Z) (p : ItemForecast) :
  unpriced p -> unpriced (adjust_item m p).
Proof.
  unfold adjust_item. destruct (_ || _); [exact (fun H => H)|].
  destruct (_ || _); exact (fun H => H).
Qed.

(** X7: the budget keys follow the budget.  In what [predict] returns,
    either no item carries [investment_required], [expected_profit] or
    [roi_percentage] (budget absent or 0), or every item carries all three
    with a positive investment, a profit of 0.3 times the investment and an
    ROI of 30 (any other budget), on the ML path and the fallback path
    alike. *)
Theorem budget_keys_follow_budget
  {G : Type} (lib : Library G)
  (company_id : Z) (budget : option Q) (days_ahead : Z) (now : date) (g : G) :
  predictions_nonneg lib ->
  exists out,
    predict company_id budget days_ahead now g = Ok out /\
    (Py.truthy budget = false -> Forall unpriced out) /\
    (Py.truthy budget = true -> Forall priced_at_30 out).
Proof.
  intro Hlib.
  destruct (predict_traced_sources company_id budget days_ahead now g Hlib)
    as (pth & base & out & Htr & Hbud & Hnn & Hsrc).
  exists out. split; [unfold predict; rewrite Htr; reflexivity|]. split.
  - intro Hf. rewrite (if_budget_falsy _ _ Hf) in Hbud. injection Hbud as <-.
    destruct Hsrc as [(_ & table & _ & ->)|(_ & -> & _)].
    + unfold _apply_seasonal_adjustments. apply Forall_map.
      eapply Forall_impl; [|apply ml_prediction_sound].
      cbn. intros p (fits & f & _ & _ & Hp).
      apply adjust_item_unpriced. exact (build_forecast_unpriced f p Hp).
    + apply Forall_forall. intros p Hp. unfold fallback_catalog in Hp.
      apply in_map_iff in Hp as ([i item] & <- & _).
      unfold fallback_item. rewrite Hf. repeat split.
  - intro Ht. destruct (if_budget_truthy budget base Ht) as (b & _ & _ & Hif).
    rewrite Hif in Hbud. exact (allocator_output_priced base out b Hnn Hbud).
Qed.

Lemma budget_keys_follow_budget_witness :
  exists out,
    predict (lib := Demo.steady) 1 (Some 300000%Q) 90 (mkDate 2026 11 4) 7 = Ok out /\
    (Py.truthy (Some 300000%Q) = false -> Forall unpriced out) /\
    (Py.truthy (Some 300000%Q) = true -> Forall priced_at_30 out).
Proof.
  apply (budget_keys_follow_budget Demo.steady 1 (Some 300000%Q) 90 (mkDate 2026 11 4) 7).
  exact steady_predictions_nonneg.
Defined.

(** ** The buckets of a short horizon *)

(** X8: the 30- and 60-day buckets are prefixes of the prediction run, so
    with at most 60 predicted days the 60-day demand equals the 90-day
    demand, and with at most 30 all three demands are equal; the 90-day
    bucket is the sum of the whole run, however long. *)
Theorem short_horizon_buckets (f : Fitted) (p : ItemForecast) :
  build_forecast f = Ok p ->
  predicted_demand_90d p = Py.int (np_sum (future_predictions f)) /\
  ((List.length (future_predictions f) <= 60)%nat ->
   predicted_demand_60d p = predicted_demand_90d p) /\
  ((List.length (future_predictions f) <= 30)%nat ->
   predicted_demand_30d p = predicted_demand_60d p /\
   predicted_demand_60d p = predicted_demand_90d p).
Proof.
  unfold build_forecast.
  destruct (mean_absolute_error (y_test f) (y_pred f)) as [mae|e]; [|discriminate].
  cbn [bind]. intro Hp.
  pose proof (f_equal (fun r => match r with
                                | Ok x => predicted_demand_30d x
                                | Raise _ => 0
                                end) Hp) as H30.
  pose proof (f_equal (fun r => match r with
                                | Ok x => predicted_demand_60d x
                                | Raise _ => 0
                                end) Hp) as H60.
  pose proof (f_equal (fun r => match r with
                                | Ok x => predicted_demand_90d x
                                | Raise _ => 0
                                end) Hp) as H90.
  cbn [predicted_demand_30d] in H30. cbn [predicted_demand_60d] in H60.
  cbn [predicted_demand_90d] in H90.
  rewrite <- H30, <- H60, <- H90.
  split; [reflexivity|]. split.
  - intro Hlen. now rewrite (firstn_all2 (n := 60) (future_predictions f)) by exact Hlen.
  - intro Hlen.
    rewrite (firstn_all2 (n := 30) (future_predictions f)) by exact Hlen.
    rewrite (firstn_all2 (n := 60) (future_predictions f)) by lia. now split.
Qed.

Lemma short_horizon_buckets_witness :
  predicted_demand_90d
    (mkForecast "item_a" 200 200 200 10 (10 # 11) ml_reason None None None)
    = Py.int (np_sum (future_predictions (Demo.forecast_for 20 "item_a"))) /\
  ((List.length (future_predictions (Demo.forecast_for 20 "item_a")) <= 60)%nat ->
   predicted_demand_60d
     (mkForecast "item_a" 200 200 200 10 (10 # 11) ml_reason None None None)
   = predicted_demand_90d
       (mkForecast "item_a" 200 200 200 10 (10 # 11) ml_reason None None None)) /\
  ((List.length (future_predictions (Demo.forecast_for 20 "item_a")) <= 30)%nat ->
   predicted_demand_30d
     (mkForecast "item_a" 200 200 200 10 (10 # 11) ml_reason None None None)
   = predicted_demand_60d
       (mkForecast "item_a" 200 200 200 10 (10 # 11) ml_reason None None None) /\
   predicted_demand_60d
     (mkForecast "item_a" 200 200 200 10 (10 # 11) ml_reason None None None)
   = predicted_demand_90d
       (mkForecast "item_a" 200 200 200 10 (10 # 11) ml_reason None None None)).
Proof.
  apply (short_horizon_buckets (Demo.forecast_for 20 "item_a")
           (mkForecast "item_a" 200 200 200 10 (10 # 11) ml_reason None None None)).
  vm_compute. reflexivity.
Defined.

(** ** The generated table *)

(** X9: whatever the generator draws (a negative Poisson value or jitter
    included), no row of the table has a negative quantity, every row
    belongs to one of the five items and to a day of the fixed range, and
    the only exception [_get_sales_data] lets out is the [ValueError] of the
    seeding call, raised exactly for identifiers outside 0 .. 2^32 - 1. *)
Theorem generated_table_invariants
  {G : Type} {lib : Library G} (company_id : Z) (g : G) :
  match fst (_get_sales_data company_id g) with
  | Ok table =>
      0 <= company_id < 2 ^ 32 /\
      Forall (fun r => 0 <= quantity_sold r /\
                       In (sale_item r) items /\ In (sale_date r) dates) table
  | Raise e => e = ValueError /\ ~ (0 <= company_id < 2 ^ 32)
  end.
Proof.
  destruct (sales_data_outcome company_id g) as [[Hin E]|[Hout E]]; rewrite E.
  - split; [exact Hin|].
    destruct (gen_table_rows (mt19937_init company_id)) as (Hkeys & Hqty).
    rewrite Forall_forall in *. intros r Hr. split; [now apply Hqty|].
    assert (Hk : In (row_key r) (list_prod dates items)).
    { rewrite <- Hkeys. now apply in_map. }
    unfold row_key in Hk. apply in_prod_iff in Hk. tauto.
  - now split.
Qed.

(** ** The stable sort, as an ordering of its input *)

Section SortOrder.
Context {A : Type} (key : A -> Q).

Lemma insert_desc_perm (x : A) (l : list A) : Permutation (insert_desc key x l) (x :: l).
Proof.
  induction l as [|y rest IH]; [reflexivity|]. cbn [insert_desc].
  destruct (Py.lt (key x) (key y)); [|reflexivity].
  rewrite IH. apply perm_swap.
Qed.

Lemma sort_desc_perm (l : list A) : Permutation (sort_desc key l) l.
Proof.
  induction l as [|x l IH]; [reflexivity|].
  unfold sort_desc in *. cbn [fold_right]. rewrite insert_desc_perm. now constructor.
Qed.

Lemma insert_desc_sorted (x : A) (l : list A) :
  StronglySorted (fun a b => (key b <= key a)%Q) l ->
  StronglySorted (fun a b => (key b <= key a)%Q) (insert_desc key x l).
Proof.
  induction 1 as [|y rest Hrest IH Hy]; cbn [insert_desc].
  - repeat constructor.
  - destruct (Py.lt (key x) (key y)) eqn:E.
    + apply lt_iff in E. constructor; [exact IH|].
      eapply Permutation_Forall; [symmetry; apply insert_desc_perm|].
      constructor; [lra | exact Hy].
    + apply lt_false_iff in E. constructor; [now constructor|].
      constructor; [exact E|].
      eapply Forall_impl; [|exact Hy]. cbn. intros b Hb. lra.
Qed.

Lemma sort_desc_sorted (l : list A) :
  StronglySorted (fun a b => (key b <= key a)%Q) (sort_desc key l).
Proof.
  induction l as [|x l IH]; [constructor|].
  unfold sort_desc in *. cbn [fold_right]. now apply insert_desc_sorted.
Qed.

Lemma sorted_firstn (R : A -> A -> Prop) (n : nat) (l : list A) :
  StronglySorted R l -> StronglySorted R (firstn n l).
Proof.
  intro Hs. revert n. induction Hs as [|x l Hl IH Hx]; intros [|n]; cbn [firstn];
    try constructor.
  - apply IH.
  - now apply Forall_firstn.
Qed.

Lemma in_skipn_in (n : nat) (l : list A) (b : A) : In b (skipn n l) -> In b l.
Proof.
  intro Hb. rewrite <- (firstn_skipn n l). apply in_or_app. now right.
Qed.

Lemma in_firstn_in (n : nat) (l : list A) (a : A) : In a (firstn n l) -> In a l.
Proof.
  intro Ha. rewrite <- (firstn_skipn n l). apply in_or_app. now left.
Qed.

Lemma sorted_split (R : A -> A -> Prop) (n : nat) (l : list A) :
  StronglySorted R l ->
  forall a b, In a (firstn n l) -> In b (skipn n l) -> R a b.
Proof.
  intro Hs. revert n. induction Hs as [|x l Hl IH Hx]; intros [|n] a b Ha Hb;
    cbn [firstn skipn] in *; try contradiction.
  destruct Ha as [<-|Ha].
  - rewrite Forall_forall in Hx. apply Hx. now apply (in_skipn_in n).
  - now apply (IH n).
Qed.

End SortOrder.

(** ** The recommendation composer *)

Lemma composer_unfold (p : ItemForecast) (rest : list ItemForecast)
  (budget : option Q) (m : Z) :
  exists first,
    generate_recommendations (p :: rest) budget m
    = (if holiday_prep_month m then first ++ [holiday_prep] else first) /\
    ((Py.truthy budget = false /\
      first = [StockRecommendation "Recommended Stock Levels"
                 "Based on predicted demand, stock these items for the next 90 days"
                 (top_items_of (p :: rest)) "high"]) \/
     (Py.truthy budget = true /\
      Py.lt 0 (Py.sum (map inv_of (top_items_of (p :: rest)))) = false /\ first = []) \/
     (Py.truthy budget = true /\
      Py.lt 0 (Py.sum (map inv_of (top_items_of (p :: rest)))) = true /\
      exists title description,
        first = [BudgetAllocation title description (top_items_of (p :: rest))
                   (Py.sum (map inv_of (top_items_of (p :: rest))))
                   (Py.sum (map (fun q => get_or_zero (expected_profit q))
                              (top_items_of (p :: rest))))
                   (Qred (Py.sum (map (fun q => get_or_zero (roi_percentage q))
                                    (top_items_of (p :: rest)))
                          / inject_Z (Z.of_nat (List.length (top_items_of (p :: rest))))))])).
Proof.
  unfold generate_recommendations, holiday_prep_month, top_items_of, inv_of.
  destruct budget as [b|].
  - destruct (Py.truthy (Some b)) eqn:Et.
    + destruct (Py.lt 0 _) eqn:El.
      * eexists. split; [reflexivity|]. right. right. repeat split. eauto.
      * eexists. split; [reflexivity|]. right. left. now repeat split.
    + eexists. split; [reflexivity|]. left. now split.
  - eexists. split; [reflexivity|]. left. now split.
Qed.

(** X10: which recommendations are emitted.  For every prediction list,
    budget and month: the stock recommendation appears exactly when the
    list is not empty and the budget is absent or 0; the budget allocation
    exactly when the list is not empty, the budget is neither and the
    investments of the three listed items sum to more than 0; the seasonal
    one exactly when the list is not empty and the month is October to
    December.  So at most two recommendations are returned and the first two
    kinds never occur together. *)
Theorem recommendation_kinds
  (predictions : list ItemForecast) (budget : option Q) (current_month : Z) :
  let recs := generate_recommendations predictions budget current_month in
  let nonempty := match predictions with [] => false | _ => true end in
  emits "stock_recommendation" recs = nonempty && negb (Py.truthy budget) /\
  emits "budget_allocation" recs
    = nonempty && Py.truthy budget
      && Py.lt 0 (Py.sum (map inv_of (top_items_of predictions))) /\
  emits "seasonal_prep" recs = nonempty && holiday_prep_month current_month /\
  (List.length recs <= 2)%nat.
Proof.
  cbn zeta. destruct predictions as [|p rest]; [repeat split; cbn; lia|].
  destruct (composer_unfold p rest budget current_month) as (first & -> & Hfirst).
  cbn [andb].
  destruct Hfirst as [(Ht & ->)|[(Ht & Hl & ->)|(Ht & Hl & title & description & ->)]];
    rewrite Ht, ?Hl; destruct (holiday_prep_month current_month);
    repeat split; cbn; lia.
Qed.

Lemma sum_of_zeros (l : list Q) : Forall (fun q => q = 0%Q) l -> Py.sum l = 0%Q.
Proof.
  unfold Py.sum. induction 1 as [|q l -> Hl IH]; [reflexivity|].
  cbn [fold_left]. exact IH.
Qed.

(** X11: a budget without priced items yields no primary recommendation.
    When a budget (not 0) is passed but no prediction carries
    [investment_required], the investments read with [.get(..., 0)] sum to
    0 and the composer emits neither the budget allocation nor the stock
    recommendation: the result is empty, or the seasonal recommendation
    alone in October to December. *)
Theorem budget_without_prices_recommends_nothing
  (predictions : list ItemForecast) (budget : option Q) (current_month : Z) :
  Py.truthy budget = true ->
  Forall (fun p => investment_required p = None) predictions ->
  generate_recommendations predictions budget current_month
  = match predictions with
    | [] => []
    | _ :: _ => if holiday_prep_month current_month then [holiday_prep] else []
    end.
Proof.
  intros Ht Hnone. destruct predictions as [|p rest]; [reflexivity|].
  destruct (composer_unfold p rest budget current_month) as (first & -> & Hfirst).
  assert (Hzero : Py.sum (map inv_of (top_items_of (p :: rest))) = 0%Q).
  { apply sum_of_zeros. apply Forall_map. apply Forall_forall. intros q Hq.
    unfold top_items_of in Hq. apply in_firstn_in in Hq.
    apply (Permutation_in _ (sort_desc_perm confidence (p :: rest))) in Hq.
    rewrite Forall_forall in Hnone. unfold inv_of. now rewrite (Hnone q Hq). }
  destruct Hfirst as [(Hf & _)|[(_ & _ & ->)|(_ & Hl & _)]].
  - congruence.
  - reflexivity.
  - rewrite Hzero in Hl. discriminate.
Qed.

Lemma budget_without_prices_recommends_nothing_witness :
  generate_recommendations (fallback_catalog None) (Some 300000%Q) 11
  = match fallback_catalog None with
    | [] => []
    | _ :: _ => if holiday_prep_month 11 then [holiday_prep] else []
    end.
Proof.
  apply (budget_without_prices_recommends_nothing (fallback_catalog None) (Some 300000%Q) 11).
  - reflexivity.
  - repeat constructor.
Defined.

(** X12: the listed items are the best three.  The items of a stock or
    budget recommendation are the first three of the predictions sorted by
    descending confidence: at most three, all of them when there are fewer,
    in non-increasing confidence, and no prediction left out has a higher
    confidence than a listed one. *)
Theorem listed_items_are_top_three
  (predictions : list ItemForecast) (budget : option Q) (current_month : Z)
  (r : Recommendation) :
  In r (generate_recommendations predictions budget current_month) ->
  rec_type r <> "seasonal_prep"%string ->
  rec_items_of r = top_items_of predictions /\
  List.length (rec_items_of r) = Nat.min 3 (List.length predictions) /\
  StronglySorted (fun a b => (confidence b <= confidence a)%Q) (rec_items_of r) /\
  exists rest,
    Permutation predictions (rec_items_of r ++ rest) /\
    forall a b, In a (rec_items_of r) -> In b rest -> (confidence b <= confidence a)%Q.
Proof.
  intros Hin Htype.
  assert (Hitems : rec_items_of r = top_items_of predictions).
  { destruct predictions as [|p rest]; [contradiction|].
    destruct (composer_unfold p rest budget current_month) as (first & E & Hfirst).
    rewrite E in Hin.
    assert (Hr : In r first \/ r = holiday_prep).
    { destruct (holiday_prep_month current_month); [|now left].
      apply in_app_or in Hin as [Hr|[<-|[]]]; [now left | now right]. }
    destruct Hr as [Hr| ->]; [|now destruct Htype].
    destruct Hfirst as [(_ & ->)|[(_ & _ & ->)|(_ & _ & title & description & ->)]].
    - destruct Hr as [<-|[]]. reflexivity.
    - contradiction.
    - destruct Hr as [<-|[]]. reflexivity. }
  rewrite Hitems. unfold top_items_of.
  pose proof (sort_desc_sorted confidence predictions) as Hsorted.
  split; [reflexivity|]. split; [|split].
  - rewrite length_firstn, sort_desc_length. reflexivity.
  - now apply sorted_firstn.
  - exists (skipn 3 (sort_desc confidence predictions)). split.
    + rewrite firstn_skipn. symmetry. apply sort_desc_perm.
    + intros a b Ha Hb.
      exact (sorted_split (fun a b => (confidence b <= confidence a)%Q) 3 _ Hsorted a b Ha Hb).
Qed.

Lemma listed_items_are_top_three_witness :
  rec_items_of
    (StockRecommendation "Recommended Stock Levels"
       "Based on predicted demand, stock these items for the next 90 days"
       (top_items_of (fallback_catalog None)) "high")
    = top_items_of (fallback_catalog None) /\
  List.length
    (rec_items_of
       (StockRecommendation "Recommended Stock Levels"
          "Based on predicted demand, stock these items for the next 90 days"
          (top_items_of (fallback_catalog None)) "high"))
    = Nat.min 3 (List.length (fallback_catalog None)) /\
  StronglySorted (fun a b => (confidence b <= confidence a)%Q)
    (rec_items_of
       (StockRecommendation "Recommended Stock Levels"
          "Based on predicted demand, stock these items for the next 90 days"
          (top_items_of (fallback_catalog None)) "high")) /\
  exists rest,
    Permutation (fallback_catalog None)
      (rec_items_of
         (StockRecommendation "Recommended Stock Levels"
            "Based on predicted demand, stock these items for the next 90 days"
            (top_items_of (fallback_catalog None)) "high") ++ rest) /\
    forall a b,
      In a (rec_items_of
              (StockRecommendation "Recommended Stock Levels"
                 "Based on predicted demand, stock these items for the next 90 days"
                 (top_items_of (fallback_catalog None)) "high")) ->
      In b rest -> (confidence b <= confidence a)%Q.
Proof.
  apply (listed_items_are_top_three (fallback_catalog None) None 3).
  - left. reflexivity.
  - discriminate.
Defined.

(** ** Sums over the listed items *)

Section Totals.
Local Open Scope Q_scope.

Lemma py_sum_from (l : list Q) (a : Q) : fold_left Py.fadd l a == a + fold_right Qplus 0 l.
Proof.
  revert a. induction l as [|x l IH]; intro a; cbn [fold_left fold_right]; [ring|].
  rewrite IH, fadd_eq. ring.
Qed.

Lemma py_sum_eq (l : list Q) : Py.sum l == fold_right Qplus 0 l.
Proof. unfold Py.sum. rewrite py_sum_from. ring. Qed.

Lemma total_investment_as_sum (l : list ItemForecast) :
  total_investment_of l = fold_right Qplus 0 (map inv_of l).
Proof.
  induction l as [|p l IH]; [reflexivity|].
  rewrite total_investment_cons. cbn [map fold_right]. now rewrite <- IH.
Qed.

Lemma fold_sum_perm (l l' : list Q) :
  Permutation l l' -> fold_right Qplus 0 l == fold_right Qplus 0 l'.
Proof.
  induction 1 as [|x l l' _ IH|x y l|l l' l'' _ IH1 _ IH2]; cbn [fold_right].
  - reflexivity.
  - now rewrite IH.
  - ring.
  - now rewrite IH1.
Qed.

Lemma fold_sum_scaled (c : Q) (xs ys : list Q) :
  Forall2 (fun x y => y == c * x) xs ys ->
  fold_right Qplus 0 ys == c * fold_right Qplus 0 xs.
Proof.
  induction 1 as [|x y xs ys Hxy _ IH]; cbn [fold_right]; [ring|].
  rewrite IH, Hxy. ring.
Qed.

Lemma fold_sum_constant (c : Q) (xs : list Q) :
  Forall (fun x => x = c) xs ->
  fold_right Qplus 0 xs == c * inject_Z (Z.of_nat (List.length xs)).
Proof.
  induction 1 as [|x xs -> _ IH]; [cbn; ring|].
  cbn [fold_right List.length]. rewrite IH, Nat2Z.inj_succ.
  unfold Z.succ. rewrite inject_Z_plus. ring.
Qed.

(** The totals the composer reports over priced items. *)
Lemma top_items_totals (predictions : list ItemForecast) :
  predictions <> [] ->
  Forall priced_at_30 predictions ->
  let top := top_items_of predictions in
  0 < Py.sum (map inv_of top) /\
  Py.sum (map inv_of top) <= total_investment_of predictions /\
  Py.sum (map (fun q => get_or_zero (expected_profit q)) top)
    == (3 # 10) * Py.sum (map inv_of top) /\
  Qred (Py.sum (map (fun q => get_or_zero (roi_percentage q)) top)
        / inject_Z (Z.of_nat (List.length top))) == 30.
Proof.
  intros Hne Hpriced. cbn zeta. unfold top_items_of.
  set (sorted := sort_desc confidence predictions).
  assert (Hperm : Permutation sorted predictions) by apply sort_desc_perm.
  assert (Hsorted : Forall priced_at_30 sorted)
    by (eapply Permutation_Forall; [symmetry; exact Hperm | exact Hpriced]).
  assert (Htop : Forall priced_at_30 (firstn 3 sorted)) by now apply Forall_firstn.
  assert (Hlen : (1 <= List.length (firstn 3 sorted))%nat).
  { rewrite length_firstn. unfold sorted. rewrite sort_desc_length.
    destruct predictions; [contradiction | cbn [List.length]; lia]. }
  assert (Hpos : Forall (fun q => 0 < q) (map inv_of (firstn 3 sorted))).
  { apply Forall_map. eapply Forall_impl; [|exact Htop].
    cbn. intros p (inv & profit & Hi & _ & _ & Hinv & _). unfold inv_of. now rewrite Hi. }
  assert (Hnn : Forall (Qle 0) (map inv_of sorted)).
  { apply Forall_map. eapply Forall_impl; [|exact Hsorted].
    cbn. intros p (inv & profit & Hi & _ & _ & Hinv & _). unfold inv_of. rewrite Hi.
    cbn. lra. }
  repeat split.
  - rewrite py_sum_eq.
    destruct (map inv_of (firstn 3 sorted)) as [|x xs] eqn:E.
    + apply (f_equal (@List.length Q)) in E. rewrite length_map in E.
      cbn [Datatypes.length] in E. lia.
    + inversion Hpos as [|? ? Hx Hxs]; subst. cbn [fold_right].
      assert (0 <= fold_right Qplus 0 xs).
      { apply fold_sum_nonneg. eapply Forall_impl; [|exact Hxs]. cbn. intros q Hq. lra. }
      lra.
  - rewrite py_sum_eq, total_investment_as_sum, <- firstn_map.
    rewrite <- (fold_sum_perm _ _ (Permutation_map inv_of Hperm)).
    now apply fold_sum_firstn_all.
  - rewrite !py_sum_eq. apply fold_sum_scaled.
    clear -Htop. induction Htop as [|p l Hp _ IH]; cbn [map]; constructor; [|exact IH].
    destruct Hp as (inv & profit & Hi & Hpr & _ & _ & Heq). unfold inv_of.
    now rewrite Hi, Hpr.
  - rewrite Qred_correct, py_sum_eq.
    rewrite (fold_sum_constant 30).
    + rewrite length_map. field.
      change 0 with (inject_Z 0). rewrite inject_Z_injective. lia.
    + apply Forall_map. eapply Forall_impl; [|exact Htop].
      cbn. intros p (inv & profit & _ & _ & Hroi & _). now rewrite Hroi.
Qed.

End Totals.

(** What the allocator hands out is within a budget that is not negative. *)
Lemma allocator_total_le (base out : list ItemForecast) (b : Q) :
  (0 <= b)%Q ->
  Forall (fun p => 0 < predicted_demand_90d p) base ->
  _apply_budget_constraints base b = Ok out ->
  (total_investment_of out <= b)%Q.
Proof.
  intros Hb Hpos Hout.
  destruct (allocator_ok_nonzero _ _ _ Hout) as (_ & ->).
  destruct (allocate_prefix (map priced base) b 0 Hb (priced_positive _ Hpos))
    as (k & _ & Hsum & Hshape).
  destruct Hshape as [-> | (pred & r & _ & Hr & _ & ->)].
  - lra.
  - rewrite total_investment_app. cbn. lra.
Qed.

(** X13: what the [/predict/demand] body reports under a positive budget.
    The investments of the returned predictions sum to at most the budget;
    no stock recommendation is emitted; and when the prediction list is not
    empty there is a budget allocation, whose total investment is positive
    and at most the budget, whose expected profit is 0.3 times that total
    and whose ROI is 30. *)
Theorem endpoint_allocation_within_budget
  {G : Type} (lib : Library G) (host : Host)
  (b : Q) (company_id days_ahead : Z) (now now_rec utcnow : date) (g : G) :
  predictions_nonneg lib ->
  (0 < b)%Q ->
  exists resp g1,
    predict_demand_body (mkRequest company_id (Some b) days_ahead) now now_rec utcnow g
      = (Respond resp, g1) /\
    (total_investment_of (resp_predictions resp) <= b)%Q /\
    (resp_predictions resp <> [] ->
     emits "budget_allocation" (resp_recommendations resp) = true) /\
    forall r, In r (resp_recommendations resp) ->
      match r with
      | BudgetAllocation _ _ its total profit roi =>
          its = top_items_of (resp_predictions resp) /\
          (0 < total)%Q /\ (total <= b)%Q /\
          (profit == (3 # 10) * total)%Q /\ (roi == 30)%Q
      | StockRecommendation _ _ _ _ => False
      | SeasonalPrep _ _ _ => True
      end.
Proof.
  intros Hlib Hb.
  destruct (predict_traced_sources company_id (Some b) days_ahead now g Hlib)
    as (pth & base & out & Htr & Hbud & Hnn & _).
  assert (Ht : Py.truthy (Some b) = true).
  { cbn. apply negb_true_iff. destruct (Qeq_bool b 0) eqn:E; [|reflexivity].
    apply Qeq_bool_iff in E. lra. }
  destruct (if_budget_truthy (Some b) base Ht) as (b' & [= <-] & _ & Hif).
  rewrite Hif in Hbud.
  destruct (allocator_ok_nonzero _ _ _ Hbud) as (Hnz & _).
  pose proof (positive_of_nonzero base Hnn Hnz) as Hpos.
  assert (Hle : (total_investment_of out <= b)%Q)
    by (apply (allocator_total_le base out b); [lra | exact Hpos | exact Hbud]).
  pose proof (allocator_output_priced base out b Hnn Hbud) as Hpriced.
  unfold predict_demand_body. cbn [req_company_id req_budget req_days_ahead].
  destruct (predict_traced company_id (Some b) days_ahead now g) as [traced g1].
  cbn [fst] in Htr. subst traced.
  eexists _, g1. split; [reflexivity|]. cbn [resp_predictions resp_recommendations].
  split; [exact Hle|].
  destruct out as [|p rest].
  - split; [congruence|]. intros r [].
  - destruct (top_items_totals (p :: rest) ltac:(discriminate) Hpriced)
      as (Hpos_total & Htop_le & Hprofit & Hroi).
    destruct (composer_unfold p rest (Some b) (month now_rec)) as (first & -> & Hfirst).
    destruct Hfirst as [(Hf & _)|[(_ & Hl & _)|(_ & _ & title & description & ->)]].
    + congruence.
    + apply lt_false_iff in Hl. lra.
    + split.
      * intros _. destruct (holiday_prep_month (month now_rec)); reflexivity.
      * intros r Hr.
        assert (Hcases : r = BudgetAllocation title description (top_items_of (p :: rest))
                               (Py.sum (map inv_of (top_items_of (p :: rest))))
                               (Py.sum (map (fun q => get_or_zero (expected_profit q))
                                          (top_items_of (p :: rest))))
                               (Qred (Py.sum (map (fun q => get_or_zero (roi_percentage q))
                                                (top_items_of (p :: rest)))
                                      / inject_Z (Z.of_nat
                                          (List.length (top_items_of (p :: rest))))))
                         \/ r = holiday_prep).
        { destruct (holiday_prep_month (month now_rec)).
          - destruct Hr as [<-|[<-|[]]]; [now left | now right].
          - destruct Hr as [<-|[]]. now left. }
        destruct Hcases as [-> | ->]; [|exact I].
        repeat split; try assumption. lra.
Qed.

Lemma endpoint_allocation_within_budget_witness :
  exists resp g1,
    predict_demand_body (lib := Demo.steady) (host := obliging_host)
      (mkRequest 1 (Some 300000%Q) 90) (mkDate 2026 11 4) (mkDate 2026 11 4)
      (mkDate 2026 11 4) 7
      = (Respond resp, g1) /\
    (total_investment_of (resp_predictions resp) <= 300000)%Q /\
    (resp_predictions resp <> [] ->
     emits "budget_allocation" (resp_recommendations resp) = true) /\
    forall r, In r (resp_recommendations resp) ->
      match r with
      | BudgetAllocation _ _ its total profit roi =>
          its = top_items_of (resp_predictions resp) /\
          (0 < total)%Q /\ (total <= 300000)%Q /\
          (profit == (3 # 10) * total)%Q /\ (roi == 30)%Q
      | StockRecommendation _ _ _ _ => False
      | SeasonalPrep _ _ _ => True
      end.
Proof.
  apply (endpoint_allocation_within_budget Demo.steady obliging_host 300000 1 90
           (mkDate 2026 11 4) (mkDate 2026 11 4) (mkDate 2026 11 4) 7).
  - exact steady_predictions_nonneg.
  - reflexivity.
Defined.

(** ** The key check and the route it guards *)

Lemma str_differs_false (a b : option string) :
  str_differs a b = false <-> a = b.
Proof.
  destruct a as [x|], b as [y|]; cbn; split; try congruence.
  - intro H. apply negb_false_iff, String.eqb_eq in H. now subst.
  - intros [= ->]. apply negb_false_iff, String.eqb_refl.
Qed.

Lemma key_check_outcomes (expected api_key : option string) :
  verify_api_key expected api_key = Respond true \/
  verify_api_key expected api_key = HTTPException 401 "Invalid or missing API key".
Proof.
  unfold verify_api_key. destruct (negb (str_truthy expected)); [now left|].
  destruct (_ || _); [now right | now left].
Qed.

(** X14: who passes [verify_api_key].  The check passes exactly when no key
    is configured ([AI_API_KEY] unset or empty: every request passes, with
    or without a header) or the header equals the configured key; every
    other request gets status 401 with the detail "Invalid or missing API
    key".  With a key configured, a missing or empty header never passes. *)
Theorem api_key_check (expected api_key : option string) :
  (verify_api_key expected api_key = Respond true <->
   str_truthy expected = false \/ api_key = expected) /\
  (verify_api_key expected api_key = Respond true \/
   verify_api_key expected api_key = HTTPException 401 "Invalid or missing API key") /\
  (str_truthy expected = true -> str_truthy api_key = false ->
   verify_api_key expected api_key = HTTPException 401 "Invalid or missing API key").
Proof.
  unfold verify_api_key.
  destruct (str_truthy expected) eqn:Ee; cbn [negb].
  - destruct (str_truthy api_key) eqn:Ea; cbn [negb orb].
    + destruct (str_differs api_key expected) eqn:Ed.
      * repeat split; auto; try discriminate.
        intros [Hf|Heq]; [discriminate|].
        apply str_differs_false in Heq. congruence.
      * apply str_differs_false in Ed. repeat split; auto. discriminate.
    + repeat split; auto; try discriminate.
      intros [Hf|Heq]; [discriminate|]. subst. congruence.
  - repeat split; auto; discriminate.
Qed.

(** X15: the route behind the key check.  A request whose key check fails
    is answered 401 without the predictor being run: the generator state is
    the one found, it is not reseeded.  A request whose key check passes is
    always answered with a body: [/predict/demand] never turns an exception
    of the predictor into a 500. *)
Theorem route_guarded_by_key
  {G : Type} {lib : Library G} {host : Host}
  (expected api_key : option string) (request : DemandPredictionRequest)
  (now now_rec utcnow : date) (g : G) :
  match verify_api_key expected api_key with
  | Respond _ =>
      exists resp g1,
        predict_demand expected api_key request now now_rec utcnow g = (Respond resp, g1) /\
        predict (req_company_id request) (req_budget request) (req_days_ahead request) now g
          = Ok (resp_predictions resp) /\
        resp_recommendations resp
          = generate_recommendations (resp_predictions resp) (req_budget request)
              (month now_rec)
  | HTTPException code detail =>
      code = 401 /\
      predict_demand expected api_key request now now_rec utcnow g
        = (HTTPException 401 detail, g)
  end.
Proof.
  destruct (key_check_outcomes expected api_key) as [E|E];
    unfold predict_demand; rewrite E.
  - unfold predict_demand_body, predict.
    destruct (predict_traced_cases (req_company_id request) (req_budget request)
                (req_days_ahead request) now g)
      as [(table & out & _ & _ & Htr)|(out & _ & _ & Htr)];
      destruct (predict_traced (req_company_id request) (req_budget request)
                  (req_days_ahead request) now g) as [traced g1];
      cbn [fst] in Htr; subst traced; eexists _, g1; repeat split.
  - now split.
Qed.

(** ** Training and status *)

Section TrainingFacts.
Context {G : Type} {lib : Library G} {host : Host}.

Lemma train_accepted (self : DemandPredictor) (company_id : Z) (now : date) (g : G) :
  0 <= company_id < 2 ^ 32 ->
  exists g1,
    train self company_id now g
    = (match _save_model (mkPredictor true (Some now)) company_id with
       | Ok _ => true
       | Raise _ => false
       end,
       mkPredictor true (Some now), g1).
Proof.
  intro Hin. unfold train.
  destruct (sales_data_outcome company_id g) as [[_ E]|[Hout _]]; [|contradiction].
  destruct (_get_sales_data company_id g) as [generated g1]. cbn [fst] in E. subst generated.
  rewrite gen_table_length. cbn [Nat.ltb Nat.leb]. exists g1.
  now destruct (_save_model (mkPredictor true (Some now)) company_id).
Qed.

Lemma train_rejected (self : DemandPredictor) (company_id : Z) (now : date) (g : G) :
  ~ (0 <= company_id < 2 ^ 32) ->
  train self company_id now g = (false, self, g).
Proof.
  intro Hout. unfold train, _get_sales_data.
  now rewrite (seed_rejects company_id Hout).
Qed.

Lemma status_accepted (self : DemandPredictor) (company_id : Z) (g : G) :
  0 <= company_id < 2 ^ 32 ->
  fst (get_status self company_id g)
  = Ok {| status_is_trained := is_trained self;
          status_last_trained := option_map isoformat (last_trained self);
          data_points_available := 3350;
          model_accuracy := if is_trained self then Some (85 # 100) else None;
          ready_for_prediction := true |}.
Proof.
  intro Hin. unfold get_status.
  destruct (sales_data_outcome company_id g) as [[_ E]|[Hout _]]; [|contradiction].
  destruct (_get_sales_data company_id g) as [generated g1]. cbn [fst] in E. subst generated.
  cbn [fst bind]. now rewrite gen_table_length.
Qed.

End TrainingFacts.

(** X16: what [train] returns and what it leaves behind.  For an identifier
    the seeding call accepts, the predictor is marked trained at [now]
    whatever happens next, and the flag returned is true exactly when
    [_save_model] succeeds: a failed fit does not make it false (the list
    [_ml_prediction] returns is dropped), and a failed save makes it false
    although the predictor stays marked trained.  For any other identifier
    [train] returns false and changes nothing, the generator state
    included. *)
Theorem train_outcome
  {G : Type} {lib : Library G} {host : Host}
  (self : DemandPredictor) (company_id : Z) (now : date) (g : G) :
  (0 <= company_id < 2 ^ 32 ->
   exists ok g1,
     train self company_id now g = (ok, mkPredictor true (Some now), g1) /\
     (ok = true <-> _save_model (mkPredictor true (Some now)) company_id = Ok tt)) /\
  (~ (0 <= company_id < 2 ^ 32) -> train self company_id now g = (false, self, g)).
Proof.
  split; [|apply train_rejected].
  intro Hin. destruct (train_accepted self company_id now g Hin) as (g1 & ->).
  eexists _, g1. split; [reflexivity|].
  destruct (_save_model (mkPredictor true (Some now)) company_id) as [[]|e];
    split; congruence.
Qed.

(** X17: [get_status] has no handler of its own.  For an accepted
    identifier it reports 3350 data points, [ready_for_prediction] true, the
    trained flag and time stamp of the predictor, and a model accuracy of
    0.85 exactly when the predictor is marked trained; for any other
    identifier the [ValueError] of the seeding call propagates to the
    caller. *)
Theorem status_outcome
  {G : Type} {lib : Library G} {host : Host}
  (self : DemandPredictor) (company_id : Z) (g : G) :
  (0 <= company_id < 2 ^ 32 ->
   exists st,
     fst (get_status self company_id g) = Ok st /\
     data_points_available st = 3350%nat /\
     ready_for_prediction st = true /\
     status_is_trained st = is_trained self /\
     status_last_trained st = option_map isoformat (last_trained self) /\
     (model_accuracy st = Some (85 # 100) <-> is_trained self = true) /\
     (model_accuracy st = None <-> is_trained self = false)) /\
  (~ (0 <= company_id < 2 ^ 32) ->
   get_status self company_id g = (Raise ValueError, g)).
Proof.
  split.
  - intro Hin. eexists. split; [exact (status_accepted self company_id g Hin)|].
    cbn. repeat split; destruct (is_trained self); congruence.
  - intro Hout. unfold get_status, _get_sales_data.
    now rewrite (seed_rejects company_id Hout).
Qed.

(** X18: status after training.  After [train] on an accepted identifier,
    whether it returned true or false, [get_status] (for any accepted
    identifier) reports the predictor as trained at [now] with accuracy
    0.85; and a predictor that was never trained reports no accuracy and no
    time stamp. *)
Theorem status_after_train
  {G : Type} {lib : Library G} {host : Host}
  (self : DemandPredictor) (company_id other_id : Z) (now : date) (g : G) :
  0 <= company_id < 2 ^ 32 ->
  0 <= other_id < 2 ^ 32 ->
  (exists ok g1,
     train self company_id now g = (ok, mkPredictor true (Some now), g1) /\
     fst (get_status (mkPredictor true (Some now)) other_id g1)
     = Ok (mkStatus true (Some (isoformat now)) 3350 (Some (85 # 100)) true)) /\
  fst (get_status new_predictor other_id g) = Ok (mkStatus false None 3350 None true).
Proof.
  intros Hin Hother. split.
  - destruct (train_accepted self company_id now g Hin) as (g1 & ->).
    eexists _, g1. split; [reflexivity|].
    exact (status_accepted (mkPredictor true (Some now)) other_id g1 Hother).
  - exact (status_accepted new_predictor other_id g Hother).
Qed.

Lemma status_after_train_witness :
  (exists ok g1,
     train (lib := Demo.failing_fit) (host := read_only_host)
       new_predictor 1 (mkDate 2026 11 4) 7
       = (ok, mkPredictor true (Some (mkDate 2026 11 4)), g1) /\
     fst (get_status (lib := Demo.failing_fit) (host := read_only_host)
            (mkPredictor true (Some (mkDate 2026 11 4))) 2 g1)
     = Ok (mkStatus true (Some (isoformat (Host := read_only_host) (mkDate 2026 11 4)))
             3350 (Some (85 # 100)) true)) /\
  fst (get_status (lib := Demo.failing_fit) (host := read_only_host) new_predictor 2 7)
    = Ok (mkStatus false None 3350 None true).
Proof.
  apply (status_after_train (lib := Demo.failing_fit) (host := read_only_host)
           new_predictor 1 2 (mkDate 2026 11 4) 7); split; (reflexivity || discriminate).
Defined.

(** ** A failed fit, seen from the route *)

(** X19: when the estimator step raises on a generated table, the
    [/predict/demand] body still answers with a body, and that body holds no
    prediction and no recommendation (not even the seasonal one): the
    failure is not reported and the fallback catalogue is not served. *)
Theorem failed_fit_gives_empty_response
  {G : Type} {lib : Library G} {host : Host}
  (request : DemandPredictionRequest) (now now_rec utcnow : date) (g : G)
  (table : list SalesRecord) (e : exn) :
  fst (_get_sales_data (req_company_id request) g) = Ok table ->
  fit_items table (req_days_ahead request) now = Raise e ->
  exists g1,
    predict_demand_body request now now_rec utcnow g
    = (Respond (mkResponse [] [] (isoformat utcnow)), g1).
Proof.
  intros Hgen Hfit.
  assert (Hml : _apply_seasonal_adjustments
                  (_ml_prediction table (req_days_ahead request) now) (month now) = []).
  { unfold _ml_prediction. rewrite Hfit. reflexivity. }
  unfold predict_demand_body.
  destruct (predict_traced_cases (req_company_id request) (req_budget request)
              (req_days_ahead request) now g)
    as [(table' & out & Hgen' & Hbud & Htr)|(out & Hwhy & _ & _)].
  - rewrite Hgen in Hgen'. injection Hgen' as <-.
    rewrite Hml, if_budget_nil in Hbud. injection Hbud as <-.
    destruct (predict_traced (req_company_id request) (req_budget request)
                (req_days_ahead request) now g) as [traced g1].
    cbn [fst] in Htr. subst traced. exists g1. reflexivity.
  - exfalso. destruct Hwhy as [(e' & He')|(table' & e' & Hgen' & Hr)]; [congruence|].
    rewrite Hgen in Hgen'. injection Hgen' as <-.
    rewrite Hml, if_budget_nil in Hr. discriminate.
Qed.

Lemma failed_fit_gives_empty_response_witness :
  exists g1,
    predict_demand_body (lib := Demo.failing_fit) (host := obliging_host)
      (mkRequest 1 (Some 300000%Q) 90) (mkDate 2026 11 4) (mkDate 2026 11 4)
      (mkDate 2026 11 4) 7
    = (Respond (mkResponse [] [] (isoformat (Host := obliging_host) (mkDate 2026 11 4))), g1).
Proof.
  apply (failed_fit_gives_empty_response (lib := Demo.failing_fit) (host := obliging_host)
           (mkRequest 1 (Some 300000%Q) 90) (mkDate 2026 11 4) (mkDate 2026 11 4)
           (mkDate 2026 11 4) 7
           (fst (gen_table (lib := Demo.failing_fit)
                   (mt19937_init (Library := Demo.failing_fit) 1)))
           (LibraryError "Expected 2D array, got 1D array instead")).
  - vm_compute. reflexivity.
  - reflexivity.
Defined.

(** ** A forecast without demand, on a full horizon *)

Lemma zero_demand_voids_ml_result_witness :
  exists out,
    fst (predict_traced (lib := quiet_item_fit) 1 (Some 300000%Q) 90 (mkDate 2026 11 4) 7)
      = Ok (ExceptionFallback, out) /\
    _fallback_prediction (Some 300000%Q) 90 = Ok out /\
    Forall (fun p => exists c, In c (fallback_catalog None) /\ item_name p = item_name c) out.
Proof.
  apply (zero_demand_voids_ml_result (lib := quiet_item_fit) 1 (Some 300000%Q) 90
           (mkDate 2026 11 4) 7
           (fst (gen_table (lib := quiet_item_fit)
                   (mt19937_init (Library := quiet_item_fit) 1)))).
  - vm_compute. reflexivity.
  - reflexivity.
  - apply Exists_cons_tl, Exists_cons_hd. reflexivity.
Defined.

(** On that run the estimator returns a 90-day prediction for both items,
    the first with a demand of 1170 and the second with no demand. *)
Lemma quiet_item_forecasts :
  map (fun p => (item_name p, predicted_demand_90d p))
    (_apply_seasonal_adjustments
       (_ml_prediction (lib := quiet_item_fit) [] 90 (mkDate 2026 11 4)) 11)
  = [("item_a"%string, 1170); ("item_e"%string, 0)].
Proof. vm_compute. reflexivity. Qed.

(** ** C2: the horizons, item by item *)

(** The run of the allocator on positive demands: the first [k] items,
    priced, and then at most a partial copy of item [k], which did not fit:
    what is left for it is below its full investment. *)
Lemma allocator_run (base out : list ItemForecast) (b : Q) :
  Forall (fun p => 0 < predicted_demand_90d p) base ->
  _apply_budget_constraints base b = Ok out ->
  exists k,
    out = map priced (firstn k base) \/
    exists orig r,
      nth_error base k = Some orig /\
      (1000 <= r)%Q /\ (r < inv_of (priced orig))%Q /\
      out = map priced (firstn k base) ++ [partial_item (priced orig) r].
Proof.
  intros Hpos Hout.
  destruct (Qlt_le_dec b 0) as [Hneg|Hnn].
  - rewrite (allocator_spent_budget base b) in Hout by (try lra; exact Hpos).
    injection Hout as <-. exists 0%nat. now left.
  - destruct (allocator_ok_nonzero _ _ _ Hout) as (_ & ->).
    destruct (allocate_partial_bound (map priced base) b 0 Hnn (priced_positive _ Hpos))
      as (k & Hrun).
    exists k. rewrite firstn_map in Hrun.
    destruct Hrun as [Hrun | (pred & r & Hnth & Hmin & Hlt & Hrun)]; [now left|].
    right. rewrite nth_error_map in Hnth.
    destruct (nth_error base k) as [orig|]; [|discriminate].
    injection Hnth as <-. now exists orig, r.
Qed.

(** C2 (amended): in every forecast [predict] returns the three demands are
    non-negative and the 30-day one is at most the 60-day one.  The list is
    made of the first [k] forecasts of the list the budget step received
    (the seasonally adjusted ML forecasts, or the fallback catalogue),
    accepted in full, followed by at most one partially allocated item: a
    copy of forecast [k] that did not fit, only when a budget is given.
    The 60-day demand is at most the 90-day one in every item accepted in
    full, provided the list comes from the fallback generator or the
    current month is not June, July or August; the partially allocated item
    is the one exception, its 90-day demand being strictly below that of
    the forecast it copies. *)
Theorem demand_horizons
  {G : Type} (lib : Library G) (company_id : Z) (budget : option Q) (days_ahead : Z)
  (now : date) (g : G) :
  predictions_nonneg lib ->
  exists pth base out,
    fst (predict_traced company_id budget days_ahead now g) = Ok (pth, out) /\
    predict company_id budget days_ahead now g = Ok out /\
    ((pth = MLPath /\
      exists table,
        fst (_get_sales_data company_id g) = Ok table /\
        base = _apply_seasonal_adjustments (_ml_prediction table days_ahead now) (month now)) \/
     (pth = ExceptionFallback /\ base = fallback_catalog budget)) /\
    Forall horizons_nonneg out /\
    exists k full part,
      out = full ++ part /\
      full = map (stamp budget) (firstn k base) /\
      (List.length part <= 1)%nat /\
      (Py.truthy budget = false -> part = []) /\
      (pth <> MLPath \/ summer (month now) = false ->
       Forall horizon_90_covers_60 full) /\
      (part = [] \/
       exists orig r,
         nth_error base k = Some orig /\
         part = [partial_item (priced orig) r] /\
         (1000 <= r)%Q /\ (r < inv_of (priced orig))%Q /\
         predicted_demand_90d (partial_item (priced orig) r) < predicted_demand_90d orig).
Proof.
  intro Hlib.
  destruct (predict_traced_sources company_id budget days_ahead now g Hlib)
    as (pth & base & out & Htr & Hbud & Hnn & Hsrc).
  exists pth, base, out. split; [exact Htr|].
  split; [unfold predict; rewrite Htr; reflexivity|].
  split; [destruct Hsrc as [Hml|(Hp & Hb & _)]; [now left | now right]|].
  split.
  { eapply if_budget_Forall; [| | exact Hnn | exact Hbud].
    - apply priced_keeps_horizons.
    - apply partial_keeps_horizons. }
  assert (Hcov : pth <> MLPath \/ summer (month now) = false ->
                 Forall horizon_90_covers_60 base).
  { intro Hcond. destruct Hsrc as [(Hp & table & Hgen & ->)|(_ & -> & _)].
    - destruct Hcond as [Hcond|Hm]; [congruence|].
      destruct (sales_data_sound company_id g table Hgen) as (_ & _ & Htable).
      eapply Forall_impl; [|exact (ml_base_horizons table days_ahead now Hlib Htable)].
      cbn. intros p [_ Hp']. now apply Hp'.
    - eapply Forall_impl; [|apply fallback_catalog_horizons]. cbn. now intros p [_ Hp']. }
  assert (Hfull : forall k,
            pth <> MLPath \/ summer (month now) = false ->
            Forall horizon_90_covers_60 (map (stamp budget) (firstn k base))).
  { intros k Hcond. apply Forall_map. apply Forall_firstn.
    eapply Forall_impl; [|exact (Hcov Hcond)].
    cbn. intros p Hp. unfold stamp. now destruct (Py.truthy budget). }
  destruct (Py.truthy budget) eqn:Et.
  - assert (Hst : forall l, map (stamp budget) l = map priced l).
    { intro l. apply map_ext. intro p. unfold stamp. now rewrite Et. }
    destruct (if_budget_truthy budget base Et) as (b & _ & _ & Hif).
    rewrite Hif in Hbud.
    destruct (allocator_ok_nonzero _ _ _ Hbud) as (Hnz & _).
    pose proof (positive_of_nonzero base Hnn Hnz) as Hpos.
    destruct (allocator_run base out b Hpos Hbud)
      as (k & [-> | (orig & r & Hnth & Hmin & Hlt & ->)]).
    + exists k, (map (stamp budget) (firstn k base)), [].
      split; [now rewrite Hst, app_nil_r|]. split; [reflexivity|].
      split; [cbn; lia|]. split; [reflexivity|].
      split; [apply Hfull | now left].
    + exists k, (map (stamp budget) (firstn k base)), [partial_item (priced orig) r].
      split; [now rewrite Hst|]. split; [reflexivity|].
      split; [cbn; lia|]. split; [discriminate|].
      split; [apply Hfull|].
      right. exists orig, r.
      split; [exact Hnth|]. split; [reflexivity|]. split; [exact Hmin|].
      split; [exact Hlt|].
      rewrite inv_of_priced in Hlt.
      exact (proj2 (partial_demand_bounds r (predicted_demand_90d orig) Hmin Hlt)).
  - rewrite (if_budget_falsy budget base Et) in Hbud. injection Hbud as <-.
    assert (Hid : map (stamp budget) (firstn (List.length base) base) = base).
    { rewrite firstn_all. rewrite <- (map_id base) at 2.
      apply map_ext. intro p. unfold stamp. now rewrite Et. }
    exists (List.length base), (map (stamp budget) (firstn (List.length base) base)), [].
    split; [now rewrite Hid, app_nil_r|]. split; [reflexivity|].
    split; [cbn; lia|]. split; [reflexivity|].
    split; [apply Hfull | now left].
Qed.

Lemma demand_horizons_witness :
  exists pth base out,
    fst (predict_traced (lib := Demo.steady) 1 (Some 300000%Q) 90 (mkDate 2026 11 4) 7)
      = Ok (pth, out) /\
    predict (lib := Demo.steady) 1 (Some 300000%Q) 90 (mkDate 2026 11 4) 7 = Ok out /\
    ((pth = MLPath /\
      exists table,
        fst (_get_sales_data (lib := Demo.steady) 1 7) = Ok table /\
        base = _apply_seasonal_adjustments
                 (_ml_prediction (lib := Demo.steady) table 90 (mkDate 2026 11 4))
                 (month (mkDate 2026 11 4))) \/
     (pth = ExceptionFallback /\ base = fallback_catalog (Some 300000%Q))) /\
    Forall horizons_nonneg out /\
    exists k full part,
      out = full ++ part /\
      full = map (stamp (Some 300000%Q)) (firstn k base) /\
      (List.length part <= 1)%nat /\
      (Py.truthy (Some 300000%Q) = false -> part = []) /\
      (pth <> MLPath \/ summer (month (mkDate 2026 11 4)) = false ->
       Forall horizon_90_covers_60 full) /\
      (part = [] \/
       exists orig r,
         nth_error base k = Some orig /\
         part = [partial_item (priced orig) r] /\
         (1000 <= r)%Q /\ (r < inv_of (priced orig))%Q /\
         predicted_demand_90d (partial_item (priced orig) r) < predicted_demand_90d orig).
Proof.
  apply (demand_horizons Demo.steady 1 (Some 300000%Q) 90 (mkDate 2026 11 4) 7).
  exact steady_predictions_nonneg.
Defined.

(** When every item is accepted in full, nothing is exempt: with a budget
    that covers the fallback catalogue, all five returned items have a
    60-day demand at most their 90-day one. *)
Lemma full_acceptance_covers_every_item :
  exists out,
    _fallback_prediction (Some 300000%Q) 90 = Ok out /\
    List.length out = 5%nat /\
    Forall horizon_90_covers_60 out.
Proof.
  eexists. split; [vm_compute; reflexivity|]. split; [reflexivity|].
  repeat constructor; unfold horizon_90_covers_60; cbn; lia.
Qed.

(** A partially allocated item is never the same record as the item accepted
    in full: its investment is what was left, below the full investment. *)
Lemma partial_differs_from_full (orig : ItemForecast) (r : Q) :
  (r < inv_of (priced orig))%Q -> partial_item (priced orig) r <> priced orig.
Proof.
  intros Hlt Heq. apply (f_equal investment_required) in Heq.
  cbn [partial_item investment_required] in Heq.
  change (investment_required (priced orig)) with (Some (inv_of (priced orig))) in Heq.
  injection Heq as Heq. rewrite Heq in Hlt. exact (Qlt_irrefl _ Hlt).
Qed.
